(** * Content recognition user interface (contentRecog/recogUi.py)

    A shallow embedding of the session coordination code of
    [source/contentRecog/recogUi.py]: the fake result object that presents a
    recognition result, its refreshable subclass with the first-result and
    refresh callbacks, and the module-level entry point
    [recognizeNavigatorObject] with the module global [_activeRecog].

    Python objects live in a heap indexed by object identity, so that the
    callbacks of a session mutate the object that [_activeRecog] and the
    host's focus pointer alias.  Calls into collaborators that are not part
    of the module (the recognizer, the screen capture, the log, the speech
    message, LiveText's text-change event) are recorded, in program order,
    in a trace of effects.  Deferred calls ([core.callLater]) and queued
    events ([queueHandler.eventQueue]) are explicit lists. *)

From stdpp Require Import gmap strings list.
From Stdlib Require Import ZArith.

(** ** Text views over a recognition result *)

Module textInfos.

(** A bookmark: a pair of offsets, independent of the result object. *)
Record Offsets := mkOffsets { startOffset : nat; endOffset : nat }.

Inductive Position :=
| POSITION_FIRST
| POSITION_LAST
| POSITION_CARET
| POSITION_SELECTION
| POSITION_BOOKMARK (b : Offsets).

(** A text view: the text it ranges over and the two offsets of the range.
    [activatable] tells whether [activate()] is implemented by the view. *)
Record TextInfo := mkTextInfo {
  story : string;
  _startOffset : nat;
  _endOffset : nat;
  activatable : bool
}.

(** [ti.copy()]: views are values here, a copy is an equal value. *)
Definition copy (ti : TextInfo) : TextInfo := ti.

(** [ti.collapse()]: both ends at the start of the range. *)
Definition collapse (ti : TextInfo) : TextInfo :=
  {| story := story ti; _startOffset := _startOffset ti;
     _endOffset := _startOffset ti; activatable := activatable ti |}.

(** [ti.bookmark] *)
Definition bookmark (ti : TextInfo) : Offsets :=
  {| startOffset := _startOffset ti; endOffset := _endOffset ti |}.

Definition isCollapsed (ti : TextInfo) : bool :=
  Nat.eqb (_startOffset ti) (_endOffset ti).

End textInfos.

(** ** The recognizer interface (package contentRecog) *)

Module contentRecog.
Import textInfos.

Record RecogImageInfo := mkRecogImageInfo {
  screenLeft : Z;
  screenTop : Z;
  screenWidth : Z;
  screenHeight : Z;
  recogWidth : Z;
  recogHeight : Z
}.

(** An accessible object of the host: what this module reads of it. *)
Record TreeInterceptor := mkTreeInterceptor {
  ti_id : nat;
  isBrowseModeDocument : bool
}.

Record NVDAObject := mkNVDAObject {
  windowHandle : Z;
  treeInterceptor : option TreeInterceptor;
  (** [None] when [location] is [None], which makes the unpacking raise
      [TypeError]; otherwise left, top, width, height. *)
  location : option (Z * Z * Z * Z)
}.

(** A recognizer, as far as this module calls it.  The two validators
    return their verdict together with the messages the recognizer speaks
    itself while validating (it may speak none). *)
Record ContentRecognizer := mkContentRecognizer {
  recognizerName : string;
  allowAutoRefresh : bool;
  autoRefreshInterval : Z;
  validateObject : NVDAObject -> bool * list string;
  validateCaptureBounds : Z * Z * Z * Z -> bool * list string;
  (** the recognizer's capture geometry: screen size to recognition size *)
  captureGeometry : Z -> Z -> Z * Z
}.

(** Modelled from the spec: [RecogImageInfo.createFromRecognizer] is
    defined in the package's [__init__], which is not among the sources.
    The region is derived from the target's bounds and the recognizer's
    capture geometry; a non-positive width or height is a construction
    error ([ValueError], here [None]). *)
Definition createFromRecognizer (left top width height : Z)
    (recognizer : ContentRecognizer) : option RecogImageInfo :=
  if ((width <=? 0) || (height <=? 0))%Z then None
  else
    let '(rw, rh) := captureGeometry recognizer width height in
    Some {| screenLeft := left; screenTop := top;
            screenWidth := width; screenHeight := height;
            recogWidth := rw; recogHeight := rh |}.

(** Modelled from the spec: a [RecognitionResult] is an opaque immutable
    value that builds a text view positioned at first, last or a given
    bookmark.  Here it is the recognized text, and whether its text views
    implement activation. *)
Record RecognitionResult := mkRecognitionResult {
  res_text : string;
  res_activatable : bool
}.

Definition viewAt (r : RecognitionResult) (s e : nat) : TextInfo :=
  {| story := res_text r; _startOffset := s; _endOffset := e;
     activatable := res_activatable r |}.

(** A bookmark resolves against a result when its range lies in the text. *)
Definition resolves (b : Offsets) (r : RecognitionResult) : bool :=
  (startOffset b <=? endOffset b) && (endOffset b <=? String.length (res_text r)).

(** Modelled from the spec: [RecognitionResult.makeTextInfo(obj, position)]
    is implemented by the result classes of the package, which are not
    among the sources.  First is the collapsed view at offset 0, last the
    collapsed view at the end of the text, a bookmark is resolved against
    this result and falls back to start of text when it no longer
    resolves.  Caret and selection are not positions of a result (the
    presenter answers them itself): [None]. *)
Definition RecognitionResult_makeTextInfo (r : RecognitionResult)
    (position : Position) : option TextInfo :=
  match position with
  | POSITION_FIRST => Some (viewAt r 0 0)
  | POSITION_LAST =>
      Some (viewAt r (String.length (res_text r)) (String.length (res_text r)))
  | POSITION_BOOKMARK b =>
      if resolves b r then Some (viewAt r (startOffset b) (endOffset b))
      else Some (viewAt r 0 0)
  | POSITION_CARET | POSITION_SELECTION => None
  end.

(** What the recognizer hands to the result callback:
    [Union[RecognitionResult, Exception]]. *)
Inductive RecognizeOutcome :=
| Recognized (r : RecognitionResult)
| Failed (exc : string).

End contentRecog.

(** ** The module recogUi *)

Module recogUi.
Import textInfos contentRecog.

(** Identity of a result object (a Python reference). *)
Definition ObjId := nat.

(** What the host's focus pointer (and a result object's [parent]) can
    refer to: an object of the host or one of the result objects. *)
Inductive ObjRef :=
| HostObject (o : NVDAObject)
| ResultObject (o : ObjId).

(** The two bound methods passed as [onResult]. *)
Inductive Callback := OnFirstResult | OnResult.

(** [RefreshableRecogResultNVDAObject]: the attributes the module sets. *)
Record RecogResultNVDAObject := mkRecogResultNVDAObject {
  parent : ObjRef;
  result : option RecognitionResult;
  _selection : option TextInfo;
  recognizer : ContentRecognizer;
  imageInfo : RecogImageInfo;
  obj_windowHandle : Z;
  (** LiveText's monitoring flag; see [startMonitoring]. *)
  monitoring : bool
}.

(** Calls into collaborators, in program order. *)
Inductive Effect :=
| ui_message (text : string)
| log_error (text : string)
| log_debugWarning (text : string)
| recognizer_cancel (r : ContentRecognizer)
| captureImage (recogW recogH left top width height : Z)
| recognizer_recognize (r : ContentRecognizer) (imgInfo : RecogImageInfo)
    (self : ObjId) (onResult : Callback)
| event_textChange (self : ObjId)
| activate (ti : TextInfo)
| executeEvent_gainFocus (target : ObjRef)
| super_event_gainFocus (self : ObjId)
| super_event_loseFocus (self : ObjId).

(** Entries of [queueHandler.eventQueue]. *)
Inductive QueueItem :=
| queueEvent_gainFocus (target : ObjId)
| queueFunction_ui_message (text : string).

(** A pending [core.callLater(delay, self._recognize, onResult)]. *)
Record Timer := mkTimer {
  delay : Z;
  timer_self : ObjId;
  timer_onResult : Callback
}.

Record State := mkState {
  _activeRecog : option ObjId;
  focusObject : ObjRef;
  navigatorObject : NVDAObject;
  heap : gmap ObjId RecogResultNVDAObject;
  eventQueue : list QueueItem;
  timers : list Timer;
  (** tree interceptors whose [_enteringFromOutside] was set *)
  enteringFromOutside : gset nat;
  trace : list Effect
}.

Inductive Exn := AttributeError (attr : string).

(** How a call ends: it returns, or it raises, in either case with the
    state as it is at that point. *)
Inductive Completion :=
| Returns (s : State)
| Raises (e : Exn) (s : State).

Definition stateOf (c : Completion) : State :=
  match c with Returns s | Raises _ s => s end.

(** *** State updates *)

Definition set_activeRecog (a : option ObjId) (s : State) : State :=
  {| _activeRecog := a; focusObject := focusObject s;
     navigatorObject := navigatorObject s; heap := heap s;
     eventQueue := eventQueue s; timers := timers s;
     enteringFromOutside := enteringFromOutside s; trace := trace s |}.

Definition set_focusObject (f : ObjRef) (s : State) : State :=
  {| _activeRecog := _activeRecog s; focusObject := f;
     navigatorObject := navigatorObject s; heap := heap s;
     eventQueue := eventQueue s; timers := timers s;
     enteringFromOutside := enteringFromOutside s; trace := trace s |}.

Definition set_heap (h : gmap ObjId RecogResultNVDAObject) (s : State) : State :=
  {| _activeRecog := _activeRecog s; focusObject := focusObject s;
     navigatorObject := navigatorObject s; heap := h;
     eventQueue := eventQueue s; timers := timers s;
     enteringFromOutside := enteringFromOutside s; trace := trace s |}.

Definition set_eventQueue (q : list QueueItem) (s : State) : State :=
  {| _activeRecog := _activeRecog s; focusObject := focusObject s;
     navigatorObject := navigatorObject s; heap := heap s;
     eventQueue := q; timers := timers s;
     enteringFromOutside := enteringFromOutside s; trace := trace s |}.

Definition set_timers (t : list Timer) (s : State) : State :=
  {| _activeRecog := _activeRecog s; focusObject := focusObject s;
     navigatorObject := navigatorObject s; heap := heap s;
     eventQueue := eventQueue s; timers := t;
     enteringFromOutside := enteringFromOutside s; trace := trace s |}.

Definition set_enteringFromOutside (e : gset nat) (s : State) : State :=
  {| _activeRecog := _activeRecog s; focusObject := focusObject s;
     navigatorObject := navigatorObject s; heap := heap s;
     eventQueue := eventQueue s; timers := timers s;
     enteringFromOutside := e; trace := trace s |}.

Definition set_trace (t : list Effect) (s : State) : State :=
  {| _activeRecog := _activeRecog s; focusObject := focusObject s;
     navigatorObject := navigatorObject s; heap := heap s;
     eventQueue := eventQueue s; timers := timers s;
     enteringFromOutside := enteringFromOutside s; trace := t |}.

(** Record one call to a collaborator. *)
Definition emit (e : Effect) (s : State) : State :=
  set_trace (trace s ++ [e]) s.

Definition emits (es : list Effect) (s : State) : State :=
  set_trace (trace s ++ es) s.

(** [queueHandler.queueFunction(queueHandler.eventQueue, ...)] and
    [eventHandler.queueEvent]: append to the event queue. *)
Definition enqueue (q : QueueItem) (s : State) : State :=
  set_eventQueue (eventQueue s ++ [q]) s.

(** [core.callLater(delay, self._recognize, onResult)]; the handle it
    returns is dropped by every caller in this module. *)
Definition callLater (d : Z) (self : ObjId) (onResult : Callback) (s : State) : State :=
  set_timers (timers s ++ [{| delay := d; timer_self := self;
                              timer_onResult := onResult |}]) s.

(** Attribute assignments on the object [self]. *)
Definition set_result (r : option RecognitionResult) (o : RecogResultNVDAObject)
    : RecogResultNVDAObject :=
  {| parent := parent o; result := r; _selection := _selection o;
     recognizer := recognizer o; imageInfo := imageInfo o;
     obj_windowHandle := obj_windowHandle o; monitoring := monitoring o |}.

Definition set_selection (t : option TextInfo) (o : RecogResultNVDAObject)
    : RecogResultNVDAObject :=
  {| parent := parent o; result := result o; _selection := t;
     recognizer := recognizer o; imageInfo := imageInfo o;
     obj_windowHandle := obj_windowHandle o; monitoring := monitoring o |}.

Definition set_monitoring (b : bool) (o : RecogResultNVDAObject)
    : RecogResultNVDAObject :=
  {| parent := parent o; result := result o; _selection := _selection o;
     recognizer := recognizer o; imageInfo := imageInfo o;
     obj_windowHandle := obj_windowHandle o; monitoring := b |}.

Definition store (self : ObjId) (o : RecogResultNVDAObject) (s : State) : State :=
  set_heap (<[self := o]> (heap s)) s.

(** *** class RecogResultNVDAObject *)

(** Truth value of [self.result]: [None] is false, a result object is true. *)
Definition truthy {A} (o : option A) : bool :=
  match o with Some _ => true | None => false end.

(** [_get_hasFocus]: [self is api.getFocusObject()]. *)
Definition hasFocus (self : ObjId) (s : State) : bool :=
  match focusObject s with
  | ResultObject o => Nat.eqb o self
  | HostObject _ => false
  end.

(** [isinstance(x, RecogResultNVDAObject)] *)
Definition isRecogResult (x : ObjRef) : bool :=
  match x with ResultObject _ => true | HostObject _ => false end.

Definition ref_windowHandle (x : ObjRef) (s : State) : Z :=
  match x with
  | HostObject o => windowHandle o
  | ResultObject o =>
      match heap s !! o with Some me => obj_windowHandle me | None => 0%Z end
  end.

(** The class attribute [treeInterceptor = None] of a result object. *)
Definition ref_treeInterceptor (x : ObjRef) : option TreeInterceptor :=
  match x with
  | HostObject o => treeInterceptor o
  | ResultObject _ => None
  end.

(** [makeTextInfo(self, position)]: the object keeps its own fake
    selection and caret, every other position is delegated to the result.
    [None] stands for the [AttributeError] of a missing [_selection] or of
    a [result] that is [None]. *)
Definition makeTextInfo (me : RecogResultNVDAObject) (position : Position)
    : option TextInfo :=
  match position with
  | POSITION_SELECTION => copy <$> _selection me
  | POSITION_CARET => (fun ti => collapse (copy ti)) <$> _selection me
  | _ =>
      match result me with
      | Some r => RecognitionResult_makeTextInfo r position
      | None => None
      end
  end.

(** [setFocus(self)]: flags a browse mode parent document, then queues the
    gainFocus event; the event is not executed here. *)
Definition setFocus (self : ObjId) (me : RecogResultNVDAObject) (s : State) : State :=
  let s1 :=
    match ref_treeInterceptor (parent me) with
    | Some ti =>
        if isBrowseModeDocument ti
        then set_enteringFromOutside ({[ti_id ti]} ∪ enteringFromOutside s) s
        else s
    | None => s
    end in
  enqueue (queueEvent_gainFocus self) s1.

#[global] Arguments setFocus : simpl never.

Definition script_activatePosition (self : ObjId) (s : State) : Completion :=
  match heap s !! self with
  | None => Returns s
  | Some me =>
      match _selection me with
      | None => Raises (AttributeError "_selection") s
      | Some ti =>
          if activatable ti then Returns (emit (activate ti) s)
          else Returns (emit (log_debugWarning
                                "Result TextInfo does not implement activate") s)
      end
  end.

Definition script_exit (self : ObjId) (s : State) : State :=
  match heap s !! self with
  | None => s
  | Some me => emit (executeEvent_gainFocus (parent me)) s
  end.

Definition script_find (self : ObjId) (s : State) : State :=
  emit (ui_message "Not supported in this document") s.

Definition script_findNext (self : ObjId) (s : State) : State :=
  emit (ui_message "Not supported in this document") s.

Definition script_findPrevious (self : ObjId) (s : State) : State :=
  emit (ui_message "Not supported in this document") s.

(** *** class RefreshableRecogResultNVDAObject *)

(** [__init__(recognizer, imageInfo)]: the parent is the focus object of
    the moment, the result is [None] (so no [_selection] is made), the
    window handle is the parent's, and LiveText starts not monitoring.
    The new object gets an identity no allocated object has. *)
Definition RefreshableRecogResultNVDAObject_init
    (rec : ContentRecognizer) (imgInfo : RecogImageInfo) (s : State)
    : ObjId * State :=
  let self : ObjId := fresh (dom (heap s)) in
  let p := focusObject s in
  let me := {| parent := p; result := None; _selection := None;
               recognizer := rec; imageInfo := imgInfo;
               obj_windowHandle := ref_windowHandle p s;
               monitoring := false |} in
  (self, store self me s).

(** Modelled from the spec: [startMonitoring] and [stopMonitoring] belong
    to LiveText (NVDAObjects.behaviors), which is not among the sources.
    Monitoring is a two-valued condition of the object; stopping goes to
    idle unconditionally and is a no-op when already idle. *)
Definition startMonitoring (self : ObjId) (s : State) : State :=
  match heap s !! self with
  | None => s
  | Some me => store self (set_monitoring true me) s
  end.

Definition stopMonitoring (self : ObjId) (s : State) : State :=
  match heap s !! self with
  | None => s
  | Some me => store self (set_monitoring false me) s
  end.

(** Modelled from the spec: the [selection] property setter is inherited
    from the cursor manager, which is not among the sources; assigning a
    text view to it makes that view the object's cursor position. *)
Definition selection_setter (self : ObjId) (ti : TextInfo) (s : State) : State :=
  match heap s !! self with
  | None => s
  | Some me => store self (set_selection (Some ti) me) s
  end.

(** [_recognize(self, onResult)]: returns at once when the object has a
    result and no longer has focus; otherwise captures the region and
    hands the pixels to the recognizer. *)
Definition _recognize (self : ObjId) (onResult : Callback) (s : State) : State :=
  match heap s !! self with
  | None => s
  | Some me =>
      if truthy (result me) && negb (hasFocus self s) then s
      else
        let imgInfo := imageInfo me in
        let s1 := emit (captureImage (recogWidth imgInfo) (recogHeight imgInfo)
                          (screenLeft imgInfo) (screenTop imgInfo)
                          (screenWidth imgInfo) (screenHeight imgInfo)) s in
        emit (recognizer_recognize (recognizer me) (imageInfo me) self onResult) s1
  end.

(** [_scheduleRecognize(self)] *)
Definition _scheduleRecognize (self : ObjId) (me : RecogResultNVDAObject)
    (s : State) : State :=
  callLater (autoRefreshInterval (recognizer me)) self OnResult s.

(** [_onFirstResult(self, result)] *)
Definition _onFirstResult (self : ObjId) (res : RecognizeOutcome) (s0 : State)
    : Completion :=
  let s := set_activeRecog None s0 in
  match res with
  | Failed exc =>
      let s1 := emit (log_error ("Recognition failed: " ++ exc)) s in
      Returns (enqueue (queueFunction_ui_message "Recognition failed") s1)
  | Recognized r =>
      match heap s !! self with
      | None => Returns s
      | Some me =>
          let me1 := set_result (Some r) me in
          match makeTextInfo me1 POSITION_FIRST with
          | None => Raises (AttributeError "makeTextInfo") (store self me1 s)
          | Some ti =>
              let me2 := set_selection (Some ti) me1 in
              let s2 := setFocus self me2 (store self me2 s) in
              if allowAutoRefresh (recognizer me2)
              then Returns (_scheduleRecognize self me2 s2)
              else Returns s2
          end
      end
  end.

(** [script_refreshBuffer(self, gesture)] *)
Definition script_refreshBuffer (self : ObjId) (s : State) : State :=
  match heap s !! self with
  | None => s
  | Some me =>
      if allowAutoRefresh (recognizer me)
      then emit (ui_message
             "The result of content recognition is already automatically updated") s
      else callLater 0 self OnResult s
  end.

(** [_onResult(self, result)] *)
Definition _onResult (self : ObjId) (res : RecognizeOutcome) (s : State)
    : Completion :=
  if negb (hasFocus self s) then Returns s
  else
    match res with
    | Failed exc =>
        let s1 := emit (log_error ("Refresh recognition failed: " ++ exc)) s in
        let s2 := enqueue (queueFunction_ui_message
                             "Refresh of recognition result failed") s1 in
        Returns (stopMonitoring self s2)
    | Recognized r =>
        match heap s !! self with
        | None => Returns s
        | Some me =>
            let me1 := set_result (Some r) me in
            let s1 := store self me1 s in
            match _selection me1 with
            | None => Raises (AttributeError "_selection") s1
            | Some sel =>
                match makeTextInfo me1 (POSITION_BOOKMARK (bookmark sel)) with
                | None => Raises (AttributeError "makeTextInfo") s1
                | Some ti =>
                    let s2 := selection_setter self ti s1 in
                    let s3 := emit (event_textChange self) s2 in
                    if allowAutoRefresh (recognizer me1)
                    then Returns (_scheduleRecognize self me1 s3)
                    else Returns s3
                end
            end
        end
    end.

(** [event_gainFocus(self)] *)
Definition event_gainFocus (self : ObjId) (s : State) : State :=
  let s1 := emit (super_event_gainFocus self) s in
  match heap s1 !! self with
  | None => s1
  | Some me =>
      if allowAutoRefresh (recognizer me) then startMonitoring self s1 else s1
  end.

(** [event_loseFocus(self)] *)
Definition event_loseFocus (self : ObjId) (s : State) : State :=
  emit (super_event_loseFocus self) (stopMonitoring self s).

(** [start(self)] *)
Definition start (self : ObjId) (s : State) : State :=
  _recognize self OnFirstResult s.

(** *** Module level *)

(** Speak the messages a validator of the recognizer emitted. *)
Definition spoken (msgs : list string) (s : State) : State :=
  emits (ui_message <$> msgs) s.

(** [if _activeRecog: _activeRecog.recognizer.cancel()] *)
Definition cancelActive (s : State) : State :=
  match _activeRecog s with
  | None => s
  | Some old =>
      match heap s !! old with
      | Some o => emit (recognizer_cancel (recognizer o)) s
      | None => s
      end
  end.

(** The last two statements: create the object, bind it to
    [_activeRecog], start it. *)
Definition installAndStart (rec : ContentRecognizer) (imgInfo : RecogImageInfo)
    (s : State) : State :=
  let '(new, s1) := RefreshableRecogResultNVDAObject_init rec imgInfo s in
  start new (set_activeRecog (Some new) s1).

Definition notVisibleMsg : string := "Content is not visible".

(** [recognizeNavigatorObject(recognizer)] *)
Definition recognizeNavigatorObject (rec : ContentRecognizer) (s : State) : State :=
  if isRecogResult (focusObject s)
  then emit (ui_message "Already in a content recognition result") s
  else
    let nav := navigatorObject s in
    let '(ok, msgs) := validateObject rec nav in
    let s1 := spoken msgs s in
    if negb ok then s1
    else
      match location nav with
      | None =>
          emit (ui_message notVisibleMsg)
            (emit (log_debugWarning "Object returned location None") s1)
      | Some (left_, top_, width, height) =>
          let '(ok2, msgs2) := validateCaptureBounds rec (left_, top_, width, height) in
          let s2 := spoken msgs2 s1 in
          if negb ok2 then s2
          else
            match createFromRecognizer left_ top_ width height rec with
            | None => emit (ui_message notVisibleMsg) s2
            | Some imgInfo =>
                let s3 := cancelActive s2 in
                let s4 := emit (ui_message "Recognizing") s3 in
                installAndStart rec imgInfo s4
            end
      end.

(** *** The host side of the callbacks *)

(** The recognizer invokes the callback it was given. *)
Definition deliver (self : ObjId) (cb : Callback) (res : RecognizeOutcome)
    (s : State) : Completion :=
  match cb with
  | OnFirstResult => _onFirstResult self res s
  | OnResult => _onResult self res s
  end.

(** Modelled from the spec: the deferred-call service of the host
    ([core.callLater]) is not among the sources.  The [n]-th pending call
    comes due: it leaves the pending list and its callable
    [self._recognize] is called with [onResult]. *)
Definition fire (n : nat) (s : State) : State :=
  match timers s !! n with
  | None => s
  | Some t =>
      _recognize (timer_self t) (timer_onResult t)
        (set_timers (delete n (timers s)) s)
  end.

(** Modelled from the spec: the host's event handling is not among the
    sources.  Giving focus to [target]: a result object that had focus
    receives [event_loseFocus], the focus pointer moves, and a result
    object that gets focus receives [event_gainFocus]. *)
Definition host_gainFocus (target : ObjRef) (s : State) : State :=
  let s1 :=
    match focusObject s with
    | ResultObject old => event_loseFocus old s
    | HostObject _ => s
    end in
  let s2 := set_focusObject target s1 in
  match target with
  | ResultObject o => event_gainFocus o s2
  | HostObject _ => s2
  end.

(** *** Observations on states and traces *)

(** The sessions considered active: what [_activeRecog] refers to. *)
Definition activeSessions (s : State) : list ObjId :=
  match _activeRecog s with Some o => [o] | None => [] end.

Definition isCancel (e : Effect) : bool :=
  match e with recognizer_cancel _ => true | _ => false end.

Definition isCapture (e : Effect) : bool :=
  match e with captureImage _ _ _ _ _ _ => true | _ => false end.

Definition isRecognize (e : Effect) : bool :=
  match e with recognizer_recognize _ _ _ _ => true | _ => false end.

Definition isMessage (e : Effect) : bool :=
  match e with ui_message _ => true | _ => false end.

Definition isTextChange (e : Effect) : bool :=
  match e with event_textChange _ => true | _ => false end.

Definition isLogError (e : Effect) : bool :=
  match e with log_error _ => true | _ => false end.

Definition count (p : Effect -> bool) (t : list Effect) : nat :=
  length (filter (fun e => p e = true) t).

#[global] Arguments count : simpl never.

Definition isGainFocusFor (self : ObjId) (q : QueueItem) : bool :=
  match q with
  | queueEvent_gainFocus o => Nat.eqb o self
  | queueFunction_ui_message _ => false
  end.

Definition timerFor (self : ObjId) (t : Timer) : bool :=
  Nat.eqb (timer_self t) self.

(** The timer list after a step that arms a refresh of [self] exactly when
    the recognizer allows automatic refresh. *)
Definition armedIfAuto (self : ObjId) (r : ContentRecognizer) (ts : list Timer)
    : list Timer :=
  if allowAutoRefresh r
  then ts ++ [{| delay := autoRefreshInterval r; timer_self := self;
                 timer_onResult := OnResult |}]
  else ts.

(** The guards of [recognizeNavigatorObject], in the order the function
    tests them; [None] when all of them pass. *)
Inductive Guard :=
| AlreadyInResult
| ObjectRejected
| NoLocation
| BoundsRejected
| NoImageInfo.

Definition failingGuard (rec : ContentRecognizer) (s : State) : option Guard :=
  if isRecogResult (focusObject s) then Some AlreadyInResult
  else if negb (fst (validateObject rec (navigatorObject s))) then Some ObjectRejected
  else
    match location (navigatorObject s) with
    | None => Some NoLocation
    | Some (l, t, w, h) =>
        if negb (fst (validateCaptureBounds rec (l, t, w, h))) then Some BoundsRejected
        else
          match createFromRecognizer l t w h rec with
          | Some _ => None
          | None => Some NoImageInfo
          end
    end.

(** What the recognizer itself said while validating, as far as the
    validators were reached. *)
Definition recognizerSpoke (rec : ContentRecognizer) (s : State) : list Effect :=
  if isRecogResult (focusObject s) then []
  else
    let nav := navigatorObject s in
    (ui_message <$> snd (validateObject rec nav)) ++
    (if fst (validateObject rec nav) then
       match location nav with
       | Some b => ui_message <$> snd (validateCaptureBounds rec b)
       | None => []
       end
     else []).

(** What [recognizeNavigatorObject] itself reports at a failing guard. *)
Definition ownReport (g : Guard) : list Effect :=
  match g with
  | AlreadyInResult => [ui_message "Already in a content recognition result"]
  | ObjectRejected => []
  | NoLocation => [log_debugWarning "Object returned location None";
                   ui_message notVisibleMsg]
  | BoundsRejected => []
  | NoImageInfo => [ui_message notVisibleMsg]
  end.

End recogUi.

(** ** Concrete sessions

    Sample recognizers, a sample host object and the states of one session,
    each state obtained by running the operations above. *)

Module Scenario.
Import textInfos contentRecog recogUi.

Definition desktop : NVDAObject :=
  {| windowHandle := 4242; treeInterceptor := None;
     location := Some (10, 20, 300, 200)%Z |}.

Definition emptyBox : NVDAObject :=
  {| windowHandle := 4243; treeInterceptor := None;
     location := Some (10, 20, 0, 0)%Z |}.

(** A recognizer without automatic refresh. *)
Definition ocr : ContentRecognizer :=
  {| recognizerName := "ocr"; allowAutoRefresh := false;
     autoRefreshInterval := 1500;
     validateObject := fun _ => (true, []);
     validateCaptureBounds := fun _ => (true, []);
     captureGeometry := fun w h => (w, h) |}.

(** A recognizer that refreshes its result every 1500 ms. *)
Definition liveOcr : ContentRecognizer :=
  {| recognizerName := "liveOcr"; allowAutoRefresh := true;
     autoRefreshInterval := 1500;
     validateObject := fun _ => (true, []);
     validateCaptureBounds := fun _ => (true, []);
     captureGeometry := fun w h => (w, h) |}.

(** A recognizer that rejects every object and says nothing about it. *)
Definition mute : ContentRecognizer :=
  {| recognizerName := "mute"; allowAutoRefresh := false;
     autoRefreshInterval := 1500;
     validateObject := fun _ => (false, []);
     validateCaptureBounds := fun _ => (true, []);
     captureGeometry := fun w h => (w, h) |}.

Definition hello : RecognitionResult :=
  {| res_text := "Hello world"; res_activatable := false |}.

Definition helloUpper : RecognitionResult :=
  {| res_text := "Hello WORLD"; res_activatable := false |}.

(** Nothing recognized yet, the focus on a host object. *)
Definition initial : State :=
  {| _activeRecog := None; focusObject := HostObject desktop;
     navigatorObject := desktop; heap := ∅; eventQueue := [];
     timers := []; enteringFromOutside := ∅; trace := [] |}.

(** A session of [liveOcr]: started, first result delivered, focus given
    to the result object, focus taken away again. *)
Definition live_started : State := recognizeNavigatorObject liveOcr initial.

Definition live_presented : State :=
  stateOf (_onFirstResult 0 (Recognized hello) live_started).

Definition live_focused : State := host_gainFocus (ResultObject 0) live_presented.

Definition live_dismissed : State := host_gainFocus (HostObject desktop) live_focused.

(** The armed refresh comes due while the result has focus, and the reader
    dismisses the result before the recognizer answers. *)
Definition refresh_inflight : State := fire 0 live_focused.

Definition dismissed_inflight : State :=
  host_gainFocus (HostObject desktop) refresh_inflight.

(** The same for [ocr], which does not refresh by itself. *)
Definition ocr_started : State := recognizeNavigatorObject ocr initial.

Definition ocr_presented : State :=
  stateOf (_onFirstResult 0 (Recognized hello) ocr_started).

Definition ocr_focused : State := host_gainFocus (ResultObject 0) ocr_presented.

(** A second request while the first session still awaits its result. *)
Definition second_started : State := recognizeNavigatorObject ocr live_started.

(** The reader moved the cursor of the focused result to offset 6. *)
Definition live_reading : State :=
  selection_setter 0 (viewAt hello 6 6) live_focused.

Definition ocr_reading : State :=
  selection_setter 0 (viewAt hello 6 6) ocr_focused.

(** The reader asks for a manual refresh, and the request comes due. *)
Definition manual_running : State := fire 0 (script_refreshBuffer 0 ocr_reading).

(** While the first session awaits its result, the navigator object is a
    target of zero area. *)
Definition empty_target : State :=
  {| _activeRecog := _activeRecog live_started;
     focusObject := focusObject live_started;
     navigatorObject := emptyBox;
     heap := heap live_started;
     eventQueue := eventQueue live_started;
     timers := timers live_started;
     enteringFromOutside := enteringFromOutside live_started;
     trace := trace live_started |}.

End Scenario.

(** ** The life of the sessions

    What can happen to the state of the module between two of its
    operations: a request, a callback of a recognizer, a deferred call
    coming due, the host running an entry of the event queue or moving the
    focus, and the gestures of the reader on the focused result. *)

Module Lifecycle.
Import textInfos contentRecog recogUi.

Definition set_navigatorObject (n : NVDAObject) (s : State) : State :=
  {| _activeRecog := _activeRecog s; focusObject := focusObject s;
     navigatorObject := n; heap := heap s;
     eventQueue := eventQueue s; timers := timers s;
     enteringFromOutside := enteringFromOutside s; trace := trace s |}.

(** The state before any request: the focus on a host object. *)
Definition idle (focus nav : NVDAObject) : State :=
  {| _activeRecog := None; focusObject := HostObject focus;
     navigatorObject := nav; heap := ∅; eventQueue := [];
     timers := []; enteringFromOutside := ∅; trace := [] |}.

(** Modelled from the spec: the host runs an entry of the event queue on
    its main thread; a gainFocus event gives the focus to its object, a
    queued function is called. *)
Definition dispatch (q : QueueItem) (s : State) : State :=
  match q with
  | queueEvent_gainFocus o => host_gainFocus (ResultObject o) s
  | queueFunction_ui_message text => emit (ui_message text) s
  end.

(** Modelled from the spec: [script_exit] executes the gainFocus event on
    the parent, which the host answers by giving the parent the focus. *)
Definition dismiss (self : ObjId) (s : State) : State :=
  match heap s !! self with
  | None => s
  | Some me => host_gainFocus (parent me) (script_exit self s)
  end.

(** One event.  A recognizer may call any callback with any outcome at any
    time; gestures reach the object that has focus. *)
Inductive Step : State -> State -> Prop :=
| step_request (rec : ContentRecognizer) (s : State) :
    Step s (recognizeNavigatorObject rec s)
| step_firstResult (self : ObjId) (res : RecognizeOutcome) (s : State) :
    Step s (stateOf (_onFirstResult self res s))
| step_result (self : ObjId) (res : RecognizeOutcome) (s : State) :
    Step s (stateOf (_onResult self res s))
| step_fire (n : nat) (s : State) :
    Step s (fire n s)
| step_dispatch (q : QueueItem) (rest : list QueueItem) (s : State) :
    eventQueue s = q :: rest ->
    Step s (dispatch q (set_eventQueue rest s))
| step_hostFocus (h : NVDAObject) (s : State) :
    Step s (host_gainFocus (HostObject h) s)
| step_navigate (n : NVDAObject) (s : State) :
    Step s (set_navigatorObject n s)
| step_refreshBuffer (self : ObjId) (s : State) :
    hasFocus self s = true ->
    Step s (script_refreshBuffer self s)
| step_activatePosition (self : ObjId) (s : State) :
    hasFocus self s = true ->
    Step s (stateOf (script_activatePosition self s))
| step_find (self : ObjId) (s : State) :
    hasFocus self s = true ->
    Step s (script_find self s)
| step_moveCursor (self : ObjId) (ti : TextInfo) (s : State) :
    hasFocus self s = true ->
    Step s (selection_setter self ti s)
| step_exit (self : ObjId) (s : State) :
    hasFocus self s = true ->
    Step s (dismiss self s).

Inductive Reachable : State -> Prop :=
| reach_idle (focus nav : NVDAObject) : Reachable (idle focus nav)
| reach_step (s s' : State) : Reachable s -> Step s s' -> Reachable s'.

(** An object that has been given its first result. *)
Definition presented (me : RecogResultNVDAObject) : bool :=
  truthy (result me) && truthy (_selection me).

Definition hasResult (s : State) (o : ObjId) : Prop :=
  exists me, heap s !! o = Some me /\ presented me = true.

(** An object still waiting for its first result. *)
Definition awaiting (s : State) (o : ObjId) : Prop :=
  exists me, heap s !! o = Some me /\ result me = None.

(** What every reachable state satisfies. *)
Record Inv (s : State) : Prop := mkInv {
  inv_focus : forall o, focusObject s = ResultObject o -> hasResult s o;
  inv_queue : forall o, queueEvent_gainFocus o ∈ eventQueue s -> hasResult s o;
  inv_timers : forall t, t ∈ timers s -> hasResult s (timer_self t);
  inv_parents : forall o me, heap s !! o = Some me -> isRecogResult (parent me) = false;
  inv_active : forall o, _activeRecog s = Some o -> awaiting s o
}.

End Lifecycle.

(** ** A run of events

    One session of [liveOcr] followed from the idle state, each state one
    event after the previous one. *)

Module Run.
Import textInfos contentRecog recogUi Lifecycle.

(** A host object inside a browse mode document. *)
Definition webPage : NVDAObject :=
  {| windowHandle := 777;
     treeInterceptor := Some {| ti_id := 5; isBrowseModeDocument := true |};
     location := Some (0, 0, 640, 480)%Z |}.

Definition requested : State :=
  recognizeNavigatorObject Scenario.liveOcr (idle Scenario.desktop Scenario.desktop).

Definition answered : State :=
  stateOf (_onFirstResult 0 (Recognized Scenario.hello) requested).

Definition shown : State :=
  dispatch (queueEvent_gainFocus 0) (set_eventQueue [] answered).

Definition closed : State := dismiss 0 shown.

(** The same with a recognizer that does not refresh by itself. *)
Definition requested_once : State :=
  recognizeNavigatorObject Scenario.ocr (idle Scenario.desktop Scenario.desktop).

Definition answered_once : State :=
  stateOf (_onFirstResult 0 (Recognized Scenario.hello) requested_once).

Definition shown_once : State :=
  dispatch (queueEvent_gainFocus 0) (set_eventQueue [] answered_once).

(** A request made from inside a browse mode document. *)
Definition requested_on_page : State :=
  recognizeNavigatorObject Scenario.ocr (idle webPage webPage).

(** [k] manual refresh requests in a row. *)
Definition refreshRequests (k : nat) (self : ObjId) (s : State) : State :=
  Nat.iter k (script_refreshBuffer self) s.

(** What stays of an object for as long as it lives. *)
Definition sameSession (me me' : RecogResultNVDAObject) : Prop :=
  recognizer me' = recognizer me /\
  imageInfo me' = imageInfo me /\
  parent me' = parent me /\
  obj_windowHandle me' = obj_windowHandle me /\
  (truthy (result me) = true -> truthy (result me') = true).

(** Every object of [s] is still there in [s'], the same session. *)
Definition persists (s s' : State) : Prop :=
  forall o me, heap s !! o = Some me ->
    exists me', heap s' !! o = Some me' /\ sameSession me me'.

End Run.

Import textInfos contentRecog recogUi.

(** ** Properties *)

Section TraceCounting.

Lemma count_app (p : Effect -> bool) (t1 t2 : list Effect) :
  count p (t1 ++ t2) = count p t1 + count p t2.
Proof. unfold count. by rewrite filter_app, length_app. Qed.

Lemma count_nil (p : Effect -> bool) : count p [] = 0.
Proof. reflexivity. Qed.

Lemma count_cons (p : Effect -> bool) (e : Effect) (t : list Effect) :
  count p (e :: t) = (if p e then 1 else 0) + count p t.
Proof.
  unfold count. rewrite filter_cons. destruct (p e) eqn:E.
  - by rewrite decide_True.
  - by rewrite decide_False.
Qed.

Lemma count_messages_only (p : Effect -> bool) (msgs : list string) :
  p = isCancel \/ p = isCapture \/ p = isRecognize ->
  count p (ui_message <$> msgs) = 0.
Proof.
  intros Hp. induction msgs as [|m msgs IH]; [done|].
  change (ui_message <$> m :: msgs) with ([ui_message m] ++ (ui_message <$> msgs)).
  rewrite count_app, IH. by destruct Hp as [->|[->| ->]].
Qed.

End TraceCounting.

(** Evaluate the counts of a trace that ends in a known list of effects. *)
Ltac count_eval := rewrite ?count_app, ?count_cons, ?count_nil; cbn.

(** C7. A failure delivered to the first-result callback is logged, the
    message "Recognition failed" is queued to the event queue, and the
    session keeps having no result: the object is untouched, the focus
    pointer stays where it was, no gainFocus event is queued for it and no
    deferred recognition is armed. *)
Theorem first_result_failure (self : ObjId) (me : RecogResultNVDAObject)
    (exc : string) (s : State) :
  heap s !! self = Some me ->
  result me = None ->
  exists s',
    _onFirstResult self (Failed exc) s = Returns s' /\
    trace s' = trace s ++ [log_error ("Recognition failed: " ++ exc)] /\
    eventQueue s' = eventQueue s ++ [queueFunction_ui_message "Recognition failed"] /\
    heap s' !! self = Some me /\
    (result <$> heap s' !! self) = Some None /\
    focusObject s' = focusObject s /\
    filter (fun q => isGainFocusFor self q = true) (eventQueue s')
      = filter (fun q => isGainFocusFor self q = true) (eventQueue s) /\
    timers s' = timers s /\
    _activeRecog s' = None.
Proof.
  intros Hme Hres. eexists. split; [reflexivity|]. cbn.
  repeat split; try done.
  - by rewrite Hme; cbn; rewrite Hres.
  - rewrite filter_app. cbn. by rewrite app_nil_r.
Qed.

Lemma first_result_failure_witness :
  exists s',
    _onFirstResult 0 (Failed "timeout") Scenario.live_started = Returns s' /\
    trace s' = trace Scenario.live_started ++ [log_error "Recognition failed: timeout"] /\
    (result <$> heap s' !! 0) = Some None /\
    timers s' = [].
Proof.
  destruct (first_result_failure 0
              {| parent := HostObject Scenario.desktop; result := None;
                 _selection := None; recognizer := Scenario.liveOcr;
                 imageInfo := mkRecogImageInfo 10 20 300 200 300 200;
                 obj_windowHandle := 4242; monitoring := false |}
              "timeout" Scenario.live_started)
    as (s' & H1 & H2 & _ & _ & H5 & _ & _ & H8 & _).
  - reflexivity.
  - reflexivity.
  - exists s'. repeat split; assumption.
Defined.

(** *** Starting a session *)

Section Starting.

Variable rec : ContentRecognizer.

Lemma spoken_spoken (m1 m2 : list string) (s : State) :
  spoken m2 (spoken m1 s) = emits ((ui_message <$> m1) ++ (ui_message <$> m2)) s.
Proof. unfold spoken, emits, set_trace. cbn. by rewrite app_assoc. Qed.

Lemma emit_emits (e : Effect) (es : list Effect) (s : State) :
  emit e (emits es s) = emits (es ++ [e]) s.
Proof. unfold emit, emits, set_trace. cbn. by rewrite app_assoc. Qed.

Lemma emits_nil (s : State) : emits [] s = s.
Proof. destruct s. unfold emits, set_trace. cbn. by rewrite app_nil_r. Qed.

(** At a failing guard the function returns the state it was given, with
    only the recognizer's own words and its own report added to the
    trace. *)
Lemma recognizeNavigatorObject_guard (s : State) (g : Guard) :
  failingGuard rec s = Some g ->
  recognizeNavigatorObject rec s = emits (recognizerSpoke rec s ++ ownReport g) s.
Proof.
  unfold failingGuard, recognizeNavigatorObject, recognizerSpoke.
  destruct (isRecogResult (focusObject s)).
  { intros [= <-]. reflexivity. }
  destruct (validateObject rec (navigatorObject s)) as [ok msgs]. cbn.
  destruct ok; cbn.
  2:{ intros [= <-]. cbn. unfold spoken. by rewrite !app_nil_r. }
  destruct (location (navigatorObject s)) as [[[[l t] w] h]|].
  2:{ intros [= <-]. cbn. unfold spoken. rewrite app_nil_r.
      by rewrite !emit_emits, <- app_assoc. }
  destruct (validateCaptureBounds rec (l, t, w, h)) as [ok2 msgs2]. cbn.
  destruct ok2; cbn.
  2:{ intros [= <-]. cbn. by rewrite spoken_spoken, app_nil_r. }
  destruct (createFromRecognizer l t w h rec); [done|].
  intros [= <-]. cbn. by rewrite spoken_spoken, emit_emits.
Qed.

(** When every guard passes, the function is the four closing statements
    run on the state with the recognizer's words added. *)
Lemma recognizeNavigatorObject_pass (s : State) (l t w h : Z)
    (imgInfo : RecogImageInfo) :
  isRecogResult (focusObject s) = false ->
  fst (validateObject rec (navigatorObject s)) = true ->
  location (navigatorObject s) = Some (l, t, w, h) ->
  fst (validateCaptureBounds rec (l, t, w, h)) = true ->
  createFromRecognizer l t w h rec = Some imgInfo ->
  recognizeNavigatorObject rec s
  = installAndStart rec imgInfo
      (emit (ui_message "Recognizing") (cancelActive (emits (recognizerSpoke rec s) s))).
Proof.
  unfold recognizeNavigatorObject, recognizerSpoke.
  intros -> Hv Hloc Hb Himg.
  destruct (validateObject rec (navigatorObject s)) as [ok msgs]. cbn in *. subst ok.
  rewrite Hloc. cbn.
  destruct (validateCaptureBounds rec (l, t, w, h)) as [ok2 msgs2]. cbn in *. subst ok2.
  rewrite Himg. cbn. by rewrite spoken_spoken.
Qed.

End Starting.

Section Sessions.

Variable rec : ContentRecognizer.

Lemma failingGuard_None (s : State) :
  failingGuard rec s = None ->
  exists l t w h imgInfo,
    isRecogResult (focusObject s) = false /\
    fst (validateObject rec (navigatorObject s)) = true /\
    location (navigatorObject s) = Some (l, t, w, h) /\
    fst (validateCaptureBounds rec (l, t, w, h)) = true /\
    createFromRecognizer l t w h rec = Some imgInfo.
Proof.
  unfold failingGuard.
  destruct (isRecogResult (focusObject s)) eqn:E1; [done|].
  destruct (fst (validateObject rec (navigatorObject s))) eqn:E2; [|done]. cbn.
  destruct (location (navigatorObject s)) as [[[[l t] w] h]|] eqn:E3; [|done].
  destruct (fst (validateCaptureBounds rec (l, t, w, h))) eqn:E4; [|done]. cbn.
  destruct (createFromRecognizer l t w h rec) as [imgInfo|] eqn:E5; [|done].
  intros _. by exists l, t, w, h, imgInfo.
Qed.

Lemma recognizerSpoke_quiet (p : Effect -> bool) (s : State) :
  p = isCancel \/ p = isCapture \/ p = isRecognize ->
  count p (recognizerSpoke rec s) = 0.
Proof.
  intros Hp. unfold recognizerSpoke.
  destruct (isRecogResult (focusObject s)); [done|].
  rewrite count_app, count_messages_only by done.
  destruct (fst (validateObject rec (navigatorObject s))); [|done].
  destruct (location (navigatorObject s)); [|done].
  by rewrite count_messages_only.
Qed.

Lemma ownReport_quiet (p : Effect -> bool) (g : Guard) :
  p = isCancel \/ p = isCapture \/ p = isRecognize ->
  count p (ownReport g) = 0.
Proof. intros [->|[->| ->]]; by destruct g. Qed.

(** The new object is allocated at an identity that was free, is bound to
    [_activeRecog], and its first recognition is requested. *)
Lemma installAndStart_spec (imgInfo : RecogImageInfo) (s : State) :
  let new : ObjId := fresh (dom (heap s)) in
  let s' := installAndStart rec imgInfo s in
  heap s !! new = None /\
  _activeRecog s' = Some new /\
  heap s' = <[new := {| parent := focusObject s; result := None; _selection := None;
                        recognizer := rec; imageInfo := imgInfo;
                        obj_windowHandle := ref_windowHandle (focusObject s) s;
                        monitoring := false |}]> (heap s) /\
  trace s' = trace s ++
    [captureImage (recogWidth imgInfo) (recogHeight imgInfo)
       (screenLeft imgInfo) (screenTop imgInfo)
       (screenWidth imgInfo) (screenHeight imgInfo);
     recognizer_recognize rec imgInfo new OnFirstResult] /\
  timers s' = timers s /\ eventQueue s' = eventQueue s /\
  focusObject s' = focusObject s.
Proof.
  intros new s'. split.
  { apply not_elem_of_dom. apply is_fresh. }
  subst s'. unfold installAndStart, RefreshableRecogResultNVDAObject_init, start,
    _recognize. cbn. fold new. rewrite lookup_insert_eq. cbn.
  repeat split; try done. by rewrite <- app_assoc.
Qed.

Lemma cancelActive_idle (s : State) :
  _activeRecog s = None -> cancelActive s = s.
Proof. unfold cancelActive. by intros ->. Qed.

(** A call that finds no active session issues no [cancel()]. *)
Lemma recognizeNavigatorObject_idle_no_cancel (s : State) :
  _activeRecog s = None ->
  count isCancel (trace (recognizeNavigatorObject rec s)) = count isCancel (trace s).
Proof.
  intros Hidle. destruct (failingGuard rec s) as [g|] eqn:Hg.
  - rewrite (recognizeNavigatorObject_guard rec s g Hg). cbn.
    rewrite !count_app, recognizerSpoke_quiet, ownReport_quiet by auto. lia.
  - destruct (failingGuard_None s Hg) as (l & t & w & h & imgInfo & H1 & H2 & H3 & H4 & H5).
    rewrite (recognizeNavigatorObject_pass rec s l t w h imgInfo H1 H2 H3 H4 H5).
    rewrite cancelActive_idle by done.
    destruct (installAndStart_spec imgInfo
                (emit (ui_message "Recognizing") (emits (recognizerSpoke rec s) s)))
      as (_ & _ & _ & -> & _).
    cbn. rewrite !count_app, recognizerSpoke_quiet by auto. count_eval. lia.
Qed.

End Sessions.

(** *** The callbacks *)

(** [setFocus] queues the gainFocus event and touches nothing but the
    queue and the flag of a browse mode parent. *)
Lemma setFocus_spec (self : ObjId) (me : RecogResultNVDAObject) (s : State) :
  let s' := setFocus self me s in
  _activeRecog s' = _activeRecog s /\
  focusObject s' = focusObject s /\
  heap s' = heap s /\
  eventQueue s' = eventQueue s ++ [queueEvent_gainFocus self] /\
  timers s' = timers s /\
  trace s' = trace s.
Proof.
  unfold setFocus. destruct (ref_treeInterceptor (parent me)) as [ti|]; [|done].
  by destruct (isBrowseModeDocument ti).
Qed.

Section Callbacks.

Variables (self : ObjId) (me : RecogResultNVDAObject) (s : State).

Hypothesis Hme : heap s !! self = Some me.

(** A success delivered to [_onFirstResult]. *)
Lemma onFirstResult_success (r : RecognitionResult) :
  exists s',
    _onFirstResult self (Recognized r) s = Returns s' /\
    _activeRecog s' = None /\
    focusObject s' = focusObject s /\
    heap s' = <[self := set_selection (Some (viewAt r 0 0)) (set_result (Some r) me)]>
                (heap s) /\
    eventQueue s' = eventQueue s ++ [queueEvent_gainFocus self] /\
    timers s' = armedIfAuto self (recognizer me) (timers s) /\
    trace s' = trace s.
Proof.
  unfold _onFirstResult, armedIfAuto. cbn. rewrite Hme. cbn.
  set (me2 := set_selection (Some (viewAt r 0 0)) (set_result (Some r) me)).
  set (s1 := store self me2 (set_activeRecog None s)).
  destruct (setFocus_spec self me2 s1) as (F1 & F2 & F3 & F4 & F5 & F6).
  destruct (allowAutoRefresh (recognizer me)); eexists; (split; [reflexivity|]);
    cbn; rewrite ?F1, ?F2, ?F3, ?F4, ?F5, ?F6; done.
Qed.

End Callbacks.

(** C10. The first-result callback, on success and on failure alike, leaves
    [_activeRecog] at [None] whatever it referred to before (the session
    itself or a newer one), so the next [recognizeNavigatorObject] issues no
    [cancel()] at all, whether or not the session is focused or has a
    refresh pending. *)
Theorem first_result_clears_activeRecog (self : ObjId) (res : RecognizeOutcome)
    (s : State) (rec : ContentRecognizer) :
  let s' := stateOf (_onFirstResult self res s) in
  _activeRecog s' = None /\
  activeSessions s' = [] /\
  count isCancel (trace (recognizeNavigatorObject rec s')) = count isCancel (trace s').
Proof.
  intros s'.
  assert (Hnone : _activeRecog s' = None).
  { subst s'. destruct res as [r|exc]; [|done].
    destruct (heap s !! self) as [me|] eqn:Hme.
    - destruct (onFirstResult_success self me s Hme r) as (s1 & -> & H & _). done.
    - unfold _onFirstResult. cbn. by rewrite Hme. }
  split; [done|]. split.
  - unfold activeSessions. by rewrite Hnone.
  - by apply recognizeNavigatorObject_idle_no_cancel.
Qed.

(** A newer session was installed while the first one still awaited its
    result; the late first result of the older session unbinds the newer
    one. *)
Example late_first_result_unbinds_newer_session :
  _activeRecog Scenario.second_started = Some 1 /\
  _activeRecog (stateOf (_onFirstResult 0 (Recognized Scenario.hello)
                           Scenario.second_started)) = None.
Proof. split; reflexivity. Qed.

(** A focused, refreshing session past its first result is not cancelled by
    a further request. *)
Example no_cancel_for_presented_session :
  hasFocus 0 Scenario.live_focused = true /\
  timers Scenario.live_focused <> [] /\
  count isCancel (trace (recognizeNavigatorObject Scenario.ocr Scenario.live_focused)) = 0.
Proof. repeat split; done. Qed.

(** C2. [_activeRecog] refers to at most one session in every state.  When
    [recognizeNavigatorObject] passes its guards while a session [old] is
    active, it first calls [cancel()] on the recognizer of [old], with [old]
    still the one active session, then announces "Recognizing", and only
    then binds the freshly created object to [_activeRecog], which makes it
    the sole active session before its recognition is requested. *)
Theorem new_session_replaces_active (rec : ContentRecognizer) (s : State)
    (old : ObjId) (oldObj : RecogResultNVDAObject)
    (l t w h : Z) (imgInfo : RecogImageInfo) :
  isRecogResult (focusObject s) = false ->
  fst (validateObject rec (navigatorObject s)) = true ->
  location (navigatorObject s) = Some (l, t, w, h) ->
  fst (validateCaptureBounds rec (l, t, w, h)) = true ->
  createFromRecognizer l t w h rec = Some imgInfo ->
  _activeRecog s = Some old ->
  heap s !! old = Some oldObj ->
  let validated := emits (recognizerSpoke rec s) s in
  let cancelled := cancelActive validated in
  let s' := recognizeNavigatorObject rec s in
  let new : ObjId := fresh (dom (heap s)) in
  (forall st : State, length (activeSessions st) <= 1) /\
  trace cancelled = trace validated ++ [recognizer_cancel (recognizer oldObj)] /\
  activeSessions cancelled = [old] /\
  s' = installAndStart rec imgInfo (emit (ui_message "Recognizing") cancelled) /\
  new <> old /\
  activeSessions s' = [new] /\
  heap s' !! old = Some oldObj /\
  (recognizer <$> heap s' !! new) = Some rec /\
  trace s' = trace validated ++
    [recognizer_cancel (recognizer oldObj);
     ui_message "Recognizing";
     captureImage (recogWidth imgInfo) (recogHeight imgInfo)
       (screenLeft imgInfo) (screenTop imgInfo)
       (screenWidth imgInfo) (screenHeight imgInfo);
     recognizer_recognize rec imgInfo new OnFirstResult].
Proof.
  intros H1 H2 H3 H4 H5 Hact Hold validated cancelled s' new.
  assert (Hc : cancelled = emit (recognizer_cancel (recognizer oldObj)) validated).
  { subst cancelled validated. unfold cancelActive. cbn. by rewrite Hact, Hold. }
  assert (Hne : new <> old).
  { intros E. assert (Hfree : heap s !! new = None)
      by (apply not_elem_of_dom, is_fresh). rewrite E in Hfree. congruence. }
  assert (Hs' : s' = installAndStart rec imgInfo (emit (ui_message "Recognizing") cancelled)).
  { subst s' cancelled validated.
    apply (recognizeNavigatorObject_pass rec s l t w h imgInfo H1 H2 H3 H4 H5). }
  destruct (installAndStart_spec rec imgInfo (emit (ui_message "Recognizing") cancelled))
    as (_ & I1 & I2 & I3 & _).
  rewrite <- Hs' in I1, I2, I3.
  assert (Hheap : heap (emit (ui_message "Recognizing") cancelled) = heap s)
    by (rewrite Hc; reflexivity).
  rewrite Hheap in I1, I2, I3. fold new in I1, I2, I3.
  split. { intros st. unfold activeSessions. destruct (_activeRecog st); cbn; lia. }
  split. { by rewrite Hc. }
  split. { rewrite Hc. unfold activeSessions. cbn. by rewrite Hact. }
  split; [done|]. split; [done|].
  split. { unfold activeSessions. by rewrite I1. }
  split. { rewrite I2. by rewrite lookup_insert_ne. }
  split. { rewrite I2. by rewrite lookup_insert_eq. }
  rewrite I3, Hc. cbn. by rewrite <- !app_assoc.
Qed.

Lemma new_session_replaces_active_witness :
  activeSessions Scenario.live_started = [0] /\
  activeSessions (recognizeNavigatorObject Scenario.ocr Scenario.live_started) = [1] /\
  trace (recognizeNavigatorObject Scenario.ocr Scenario.live_started)
  = trace Scenario.live_started ++
    [recognizer_cancel Scenario.liveOcr;
     ui_message "Recognizing";
     captureImage 300 200 10 20 300 200;
     recognizer_recognize Scenario.ocr (mkRecogImageInfo 10 20 300 200 300 200)
       1 OnFirstResult].
Proof.
  pose proof (new_session_replaces_active Scenario.ocr Scenario.live_started 0
                {| parent := HostObject Scenario.desktop; result := None;
                   _selection := None; recognizer := Scenario.liveOcr;
                   imageInfo := mkRecogImageInfo 10 20 300 200 300 200;
                   obj_windowHandle := 4242; monitoring := false |}
                10 20 300 200 (mkRecogImageInfo 10 20 300 200 300 200)
                eq_refl eq_refl eq_refl eq_refl eq_refl eq_refl eq_refl) as H.
  cbv zeta in H. destruct H as (_ & _ & _ & _ & _ & H6 & _ & _ & H9).
  split; [reflexivity|]. split; [exact H6|exact H9].
Defined.

(** C4, as stated, fails: a recognizer whose [validateObject] answers false
    without speaking makes [recognizeNavigatorObject] return with no
    message at all. *)
Lemma rejected_object_returns_silently :
  failingGuard Scenario.mute Scenario.initial = Some ObjectRejected /\
  recognizeNavigatorObject Scenario.mute Scenario.initial = Scenario.initial /\
  count isMessage (trace (recognizeNavigatorObject Scenario.mute Scenario.initial)) = 0.
Proof. repeat split; reflexivity. Qed.

(** C4, amended. At every failing guard [recognizeNavigatorObject] returns
    early and changes nothing: [_activeRecog], the objects, the focus, the
    event queue and the pending timers are as before, and the trace grows
    only by what the recognizer said while validating and by the function's
    own report, with no [cancel()], no capture and no [recognize] among
    them.  The function's own report ends in a message for the three guards
    it owns (focus already in a result, no location, no image region); at a
    rejection by [validateObject] or [validateCaptureBounds] it reports
    nothing itself. *)
Theorem failing_guard_returns_early (rec : ContentRecognizer) (s : State) (g : Guard) :
  failingGuard rec s = Some g ->
  let s' := recognizeNavigatorObject rec s in
  _activeRecog s' = _activeRecog s /\
  heap s' = heap s /\
  focusObject s' = focusObject s /\
  eventQueue s' = eventQueue s /\
  timers s' = timers s /\
  trace s' = trace s ++ recognizerSpoke rec s ++ ownReport g /\
  count isCancel (trace s') = count isCancel (trace s) /\
  count isCapture (trace s') = count isCapture (trace s) /\
  count isRecognize (trace s') = count isRecognize (trace s) /\
  match g with
  | AlreadyInResult =>
      last (trace s') = Some (ui_message "Already in a content recognition result")
  | NoLocation | NoImageInfo =>
      last (trace s') = Some (ui_message "Content is not visible")
  | ObjectRejected | BoundsRejected => ownReport g = []
  end.
Proof.
  intros Hg s'. subst s'. rewrite (recognizeNavigatorObject_guard rec s g Hg). cbn.
  repeat (split; [done|]).
  split. { rewrite !count_app, recognizerSpoke_quiet, ownReport_quiet by auto. lia. }
  split. { rewrite !count_app, recognizerSpoke_quiet, ownReport_quiet by auto. lia. }
  split. { rewrite !count_app, recognizerSpoke_quiet, ownReport_quiet by auto. lia. }
  destruct g; cbn; try done; rewrite !app_assoc; try apply last_snoc.
  change [log_debugWarning "Object returned location None"; ui_message notVisibleMsg]
    with ([log_debugWarning "Object returned location None"] ++ [ui_message notVisibleMsg]).
  rewrite app_assoc. apply last_snoc.
Qed.

(** A target of zero area that the recognizer lets through is stopped at
    the construction of the image region. *)
Lemma zero_area_has_no_region (rec : ContentRecognizer) (l t w h : Z) :
  (w = 0 \/ h = 0)%Z -> createFromRecognizer l t w h rec = None.
Proof.
  intros [-> | ->]; unfold createFromRecognizer; cbn; [done|].
  by rewrite orb_true_r.
Qed.

Lemma failing_guard_returns_early_witness :
  failingGuard Scenario.ocr Scenario.empty_target = Some NoImageInfo /\
  _activeRecog (recognizeNavigatorObject Scenario.ocr Scenario.empty_target) = Some 0 /\
  count isCancel (trace (recognizeNavigatorObject Scenario.ocr Scenario.empty_target)) = 0 /\
  count isRecognize (trace (recognizeNavigatorObject Scenario.ocr Scenario.empty_target)) = 1 /\
  last (trace (recognizeNavigatorObject Scenario.ocr Scenario.empty_target))
  = Some (ui_message "Content is not visible").
Proof.
  pose proof (failing_guard_returns_early Scenario.ocr Scenario.empty_target
                NoImageInfo eq_refl) as H.
  cbv zeta in H. destruct H as (H1 & _ & _ & _ & _ & _ & H7 & _ & H9 & H10).
  split; [reflexivity|]. split; [exact H1|]. split; [exact H7|].
  split; [exact H9|exact H10].
Defined.

(** *** The refresh callback *)

Section Refresh.

Variables (self : ObjId) (s : State).

(** The guard of [_onResult]: without focus the call returns at once. *)
Lemma onResult_unfocused (res : RecognizeOutcome) :
  hasFocus self s = false -> _onResult self res s = Returns s.
Proof. unfold _onResult. by intros ->. Qed.

(** The view a bookmark gives on a result. *)
Lemma bookmark_view (me : RecogResultNVDAObject) (r : RecognitionResult) (sel : TextInfo) :
  makeTextInfo (set_result (Some r) me) (POSITION_BOOKMARK (bookmark sel))
  = Some (if resolves (bookmark sel) r
          then viewAt r (_startOffset sel) (_endOffset sel)
          else viewAt r 0 0).
Proof. cbn. by destruct (resolves (bookmark sel) r). Qed.

(** A success delivered to [_onResult] while the object has focus. *)
Lemma onResult_success (me : RecogResultNVDAObject) (sel : TextInfo)
    (r : RecognitionResult) :
  hasFocus self s = true ->
  heap s !! self = Some me ->
  _selection me = Some sel ->
  exists s',
    _onResult self (Recognized r) s = Returns s' /\
    _activeRecog s' = _activeRecog s /\
    focusObject s' = focusObject s /\
    heap s' = <[self := set_selection
                          (Some (if resolves (bookmark sel) r
                                 then viewAt r (_startOffset sel) (_endOffset sel)
                                 else viewAt r 0 0))
                          (set_result (Some r) me)]> (heap s) /\
    eventQueue s' = eventQueue s /\
    timers s' = armedIfAuto self (recognizer me) (timers s) /\
    trace s' = trace s ++ [event_textChange self].
Proof.
  intros Hf Hme Hsel. unfold _onResult. rewrite Hf, Hme. cbn [negb].
  cbn [_selection set_result]. rewrite Hsel, bookmark_view.
  unfold selection_setter, store at 2. cbn [heap set_heap store].
  rewrite lookup_insert_eq. unfold armedIfAuto. cbn [recognizer set_result].
  destruct (allowAutoRefresh (recognizer me)); eexists; (split; [reflexivity|]);
    cbn; by rewrite insert_insert_eq.
Qed.

(** A failure delivered to [_onResult] while the object has focus. *)
Lemma onResult_failure (me : RecogResultNVDAObject) (exc : string) :
  hasFocus self s = true ->
  heap s !! self = Some me ->
  exists s',
    _onResult self (Failed exc) s = Returns s' /\
    _activeRecog s' = _activeRecog s /\
    focusObject s' = focusObject s /\
    heap s' = <[self := set_monitoring false me]> (heap s) /\
    eventQueue s' = eventQueue s ++
      [queueFunction_ui_message "Refresh of recognition result failed"] /\
    timers s' = timers s /\
    trace s' = trace s ++ [log_error ("Refresh recognition failed: " ++ exc)].
Proof.
  intros Hf Hme. unfold _onResult. rewrite Hf. cbn [negb].
  unfold stopMonitoring. cbn. rewrite Hme. by eexists.
Qed.

End Refresh.

(** C1, as stated, fails for the first-result callback: session 0 was
    cancelled and replaced by session 1 and never had focus, yet its late
    success is accepted: its result is set, a gainFocus event is queued for
    it and, its recognizer refreshing automatically, a refresh is armed. *)
Lemma late_first_result_is_accepted :
  activeSessions Scenario.second_started = [1] /\
  hasFocus 0 Scenario.second_started = false /\
  exists s',
    _onFirstResult 0 (Recognized Scenario.hello) Scenario.second_started = Returns s' /\
    (result <$> heap s' !! 0) = Some (Some Scenario.hello) /\
    eventQueue s' = [queueEvent_gainFocus 0] /\
    timers s' = [{| delay := 1500; timer_self := 0; timer_onResult := OnResult |}].
Proof.
  split; [reflexivity|]. split; [reflexivity|].
  eexists. split; [reflexivity|]. repeat split; reflexivity.
Qed.

(** C1, amended. The refresh callback [_onResult] discards whatever arrives
    while its object does not have focus: the state is left as it was, so
    the result is not set, nothing is queued and nothing is armed.  The
    first-result callback [_onFirstResult] has no such guard: a success is
    accepted without focus too, the result is set, the gainFocus event is
    queued and a refresh is armed exactly when the recognizer allows
    automatic refresh. *)
Theorem refresh_result_discarded_without_focus (self : ObjId)
    (me : RecogResultNVDAObject) (res : RecognizeOutcome) (r : RecognitionResult)
    (s : State) :
  hasFocus self s = false ->
  heap s !! self = Some me ->
  _onResult self res s = Returns s /\
  exists s',
    _onFirstResult self (Recognized r) s = Returns s' /\
    (result <$> heap s' !! self) = Some (Some r) /\
    eventQueue s' = eventQueue s ++ [queueEvent_gainFocus self] /\
    timers s' = armedIfAuto self (recognizer me) (timers s).
Proof.
  intros Hf Hme. split; [by apply onResult_unfocused|].
  destruct (onFirstResult_success self me s Hme r) as (s' & E & _ & _ & Hh & Hq & Ht & _).
  exists s'. rewrite Hh, lookup_insert_eq. done.
Qed.

Lemma refresh_result_discarded_without_focus_witness :
  _onResult 0 (Recognized Scenario.helloUpper) Scenario.dismissed_inflight
  = Returns Scenario.dismissed_inflight.
Proof.
  exact (proj1 (refresh_result_discarded_without_focus 0
                  {| parent := HostObject Scenario.desktop;
                     result := Some Scenario.hello;
                     _selection := Some (viewAt Scenario.hello 0 0);
                     recognizer := Scenario.liveOcr;
                     imageInfo := mkRecogImageInfo 10 20 300 200 300 200;
                     obj_windowHandle := 4242; monitoring := false |}
                  (Recognized Scenario.helloUpper) Scenario.helloUpper
                  Scenario.dismissed_inflight eq_refl eq_refl)).
Defined.

(** C5. A success delivered to the first-result callback sets the result,
    puts the cursor at the start of the result's text (the view at first is
    over the result's text at offset 0, the caret is the selection collapsed
    at offset 0), queues the gainFocus event on the event queue without
    moving the focus or calling anything itself, and arms a deferred
    recognition exactly when the recognizer allows automatic refresh. *)
Theorem first_result_success (self : ObjId) (me : RecogResultNVDAObject)
    (r : RecognitionResult) (s : State) :
  heap s !! self = Some me ->
  exists s' me',
    _onFirstResult self (Recognized r) s = Returns s' /\
    heap s' !! self = Some me' /\
    result me' = Some r /\
    _selection me' = Some (viewAt r 0 0) /\
    makeTextInfo me' POSITION_FIRST = Some (viewAt r 0 0) /\
    story (viewAt r 0 0) = res_text r /\
    makeTextInfo me' POSITION_CARET = Some (viewAt r 0 0) /\
    isCollapsed (viewAt r 0 0) = true /\
    eventQueue s' = eventQueue s ++ [queueEvent_gainFocus self] /\
    focusObject s' = focusObject s /\
    trace s' = trace s /\
    timers s' = armedIfAuto self (recognizer me) (timers s) /\
    (allowAutoRefresh (recognizer me) = true <->
     timers s' = timers s ++ [{| delay := autoRefreshInterval (recognizer me);
                                 timer_self := self; timer_onResult := OnResult |}]).
Proof.
  intros Hme.
  destruct (onFirstResult_success self me s Hme r) as (s' & E & _ & Hf & Hh & Hq & Ht & Htr).
  exists s', (set_selection (Some (viewAt r 0 0)) (set_result (Some r) me)).
  split; [done|]. split; [by rewrite Hh, lookup_insert_eq|].
  repeat (split; [done|]). rewrite Ht. unfold armedIfAuto.
  destruct (allowAutoRefresh (recognizer me)); split; try done.
  intros E'. apply (f_equal length) in E'. rewrite length_app in E'. cbn in E'. lia.
Qed.

Lemma first_result_success_witness :
  exists s' me',
    _onFirstResult 0 (Recognized Scenario.hello) Scenario.ocr_started = Returns s' /\
    heap s' !! 0 = Some me' /\
    (story <$> makeTextInfo me' POSITION_FIRST) = Some "Hello world" /\
    makeTextInfo me' POSITION_CARET
    = Some {| story := "Hello world"; _startOffset := 0; _endOffset := 0;
              activatable := false |} /\
    eventQueue s' = [queueEvent_gainFocus 0] /\
    timers s' = [].
Proof.
  destruct (first_result_success 0
              {| parent := HostObject Scenario.desktop; result := None;
                 _selection := None; recognizer := Scenario.ocr;
                 imageInfo := mkRecogImageInfo 10 20 300 200 300 200;
                 obj_windowHandle := 4242; monitoring := false |}
              Scenario.hello Scenario.ocr_started eq_refl)
    as (s' & me' & H1 & H2 & _ & _ & H5 & _ & H7 & _ & H9 & _ & _ & H12 & _).
  exists s', me'. split; [exact H1|]. split; [exact H2|].
  split; [by rewrite H5|]. split; [exact H7|]. split; [exact H9|exact H12].
Defined.

(** C6. A success delivered to the refresh callback while the object has
    focus replaces the result by the new one, resolves the bookmark of the
    old cursor position against the new result (the same offsets when they
    resolve, start of text otherwise), calls the text-change event exactly
    once, and arms the next deferred recognition exactly when the
    recognizer allows automatic refresh. *)
Theorem refresh_success (self : ObjId) (me : RecogResultNVDAObject)
    (sel : TextInfo) (r : RecognitionResult) (s : State) :
  hasFocus self s = true ->
  heap s !! self = Some me ->
  _selection me = Some sel ->
  exists s' me',
    _onResult self (Recognized r) s = Returns s' /\
    heap s' !! self = Some me' /\
    result me' = Some r /\
    _selection me' = Some (if resolves (bookmark sel) r
                           then viewAt r (_startOffset sel) (_endOffset sel)
                           else viewAt r 0 0) /\
    trace s' = trace s ++ [event_textChange self] /\
    count isTextChange (trace s') = count isTextChange (trace s) + 1 /\
    timers s' = armedIfAuto self (recognizer me) (timers s) /\
    (allowAutoRefresh (recognizer me) = true <->
     timers s' = timers s ++ [{| delay := autoRefreshInterval (recognizer me);
                                 timer_self := self; timer_onResult := OnResult |}]) /\
    eventQueue s' = eventQueue s /\
    focusObject s' = focusObject s.
Proof.
  intros Hf Hme Hsel.
  destruct (onResult_success self s me sel r Hf Hme Hsel)
    as (s' & E & _ & Hfo & Hh & Hq & Ht & Htr).
  eexists s', _. split; [done|]. split; [by rewrite Hh, lookup_insert_eq|].
  repeat (split; [done|]).
  split. { rewrite Htr. by count_eval. }
  split; [done|]. split; [|done]. rewrite Ht. unfold armedIfAuto.
  destruct (allowAutoRefresh (recognizer me)); split; try done.
  intros E'. apply (f_equal length) in E'. rewrite length_app in E'. cbn in E'. lia.
Qed.

Lemma refresh_success_witness :
  exists s' me',
    _onResult 0 (Recognized Scenario.helloUpper) Scenario.live_reading = Returns s' /\
    heap s' !! 0 = Some me' /\
    result me' = Some Scenario.helloUpper /\
    _selection me' = Some {| story := "Hello WORLD"; _startOffset := 6;
                             _endOffset := 6; activatable := false |} /\
    count isTextChange (trace s') = count isTextChange (trace Scenario.live_reading) + 1 /\
    length (timers s') = length (timers Scenario.live_reading) + 1.
Proof.
  destruct (refresh_success 0
              {| parent := HostObject Scenario.desktop;
                 result := Some Scenario.hello;
                 _selection := Some (viewAt Scenario.hello 6 6);
                 recognizer := Scenario.liveOcr;
                 imageInfo := mkRecogImageInfo 10 20 300 200 300 200;
                 obj_windowHandle := 4242; monitoring := true |}
              (viewAt Scenario.hello 6 6) Scenario.helloUpper Scenario.live_reading
              eq_refl eq_refl eq_refl)
    as (s' & me' & H1 & H2 & H3 & H4 & _ & H6 & H7 & _).
  exists s', me'. split; [exact H1|]. split; [exact H2|]. split; [exact H3|].
  split; [exact H4|]. split; [exact H6|]. by rewrite H7.
Defined.

(** A bookmark past the end of a shorter new text falls back to the start. *)
Example bookmark_falls_back_to_start :
  RecognitionResult_makeTextInfo (mkRecognitionResult "Hi" false)
    (POSITION_BOOKMARK (bookmark (viewAt Scenario.hello 6 6)))
  = Some (viewAt (mkRecognitionResult "Hi" false) 0 0).
Proof. reflexivity. Qed.

(** C8, as stated, fails when the object has lost focus: a failed refresh
    that arrives then is neither logged nor reported. *)
Lemma refresh_failure_ignored_without_focus :
  last (trace Scenario.dismissed_inflight) = Some (super_event_loseFocus 0) /\
  count isRecognize (trace Scenario.dismissed_inflight) = 2 /\
  hasFocus 0 Scenario.dismissed_inflight = false /\
  _onResult 0 (Failed "timeout") Scenario.dismissed_inflight
  = Returns Scenario.dismissed_inflight /\
  count isLogError
    (trace (stateOf (_onResult 0 (Failed "timeout") Scenario.dismissed_inflight))) = 0 /\
  eventQueue (stateOf (_onResult 0 (Failed "timeout") Scenario.dismissed_inflight))
  = eventQueue Scenario.dismissed_inflight.
Proof. repeat split; reflexivity. Qed.

(** C8, amended. A failure delivered to the refresh callback while the
    object still has focus is logged, the message "Refresh of recognition
    result failed", which is not the message of a failed first recognition,
    is queued, monitoring is stopped, no deferred recognition is armed, and
    the result and the cursor position of the object stay as they were. *)
Theorem refresh_failure (self : ObjId) (me : RecogResultNVDAObject)
    (exc : string) (s : State) :
  hasFocus self s = true ->
  heap s !! self = Some me ->
  exists s' me',
    _onResult self (Failed exc) s = Returns s' /\
    trace s' = trace s ++ [log_error ("Refresh recognition failed: " ++ exc)] /\
    eventQueue s' = eventQueue s ++
      [queueFunction_ui_message "Refresh of recognition result failed"] /\
    "Refresh of recognition result failed" <> "Recognition failed" /\
    heap s' !! self = Some me' /\
    monitoring me' = false /\
    result me' = result me /\
    _selection me' = _selection me /\
    timers s' = timers s /\
    count isRecognize (trace s') = count isRecognize (trace s).
Proof.
  intros Hf Hme.
  destruct (onResult_failure self s me exc Hf Hme)
    as (s' & E & _ & _ & Hh & Hq & Ht & Htr).
  exists s', (set_monitoring false me).
  split; [done|]. split; [done|]. split; [done|]. split; [done|].
  split; [by rewrite Hh, lookup_insert_eq|].
  repeat (split; [done|]). rewrite Htr. count_eval. lia.
Qed.

Lemma refresh_failure_witness :
  exists s' me',
    _onResult 0 (Failed "timeout") Scenario.live_reading = Returns s' /\
    trace s' = trace Scenario.live_reading ++
               [log_error "Refresh recognition failed: timeout"] /\
    heap s' !! 0 = Some me' /\
    monitoring me' = false /\
    result me' = Some Scenario.hello /\
    timers s' = timers Scenario.live_reading.
Proof.
  destruct (refresh_failure 0
              {| parent := HostObject Scenario.desktop;
                 result := Some Scenario.hello;
                 _selection := Some (viewAt Scenario.hello 6 6);
                 recognizer := Scenario.liveOcr;
                 imageInfo := mkRecogImageInfo 10 20 300 200 300 200;
                 obj_windowHandle := 4242; monitoring := true |}
              "timeout" Scenario.live_reading eq_refl eq_refl)
    as (s' & me' & H1 & H2 & _ & _ & H5 & H6 & H7 & _ & H9 & _).
  exists s', me'. repeat split; assumption.
Defined.

(** *** Losing focus *)

(** C3, as stated, fails: the deferred recognition armed after the first
    result is still pending after the result lost focus; nothing cancels
    it. *)
Lemma timer_survives_focus_loss :
  timers Scenario.live_focused
  = [{| delay := 1500; timer_self := 0; timer_onResult := OnResult |}] /\
  timers (event_loseFocus 0 Scenario.live_focused) = timers Scenario.live_focused /\
  hasFocus 0 Scenario.live_dismissed = false /\
  timers Scenario.live_dismissed
  = [{| delay := 1500; timer_self := 0; timer_onResult := OnResult |}].
Proof. repeat split; reflexivity. Qed.

Lemma set_monitoring_idle (me : RecogResultNVDAObject) :
  monitoring me = false -> set_monitoring false me = me.
Proof. destruct me. cbn. by intros ->. Qed.

(** C3, amended. When the result object loses focus, monitoring is stopped
    (nothing changes if it was not monitoring), and the deferred
    recognitions stay pending: none is cancelled.  A pending one that comes
    due after the focus has moved away from an object that has a result
    calls [_recognize], which returns at once: no capture, no [recognize]
    call, and no further deferred recognition is armed. *)
Theorem focus_loss_defuses_timer (self : ObjId) (me : RecogResultNVDAObject)
    (s : State) (target : ObjRef) (n : nat) (t : Timer) :
  heap s !! self = Some me ->
  truthy (result me) = true ->
  timers s !! n = Some t ->
  timer_self t = self ->
  target <> ResultObject self ->
  let lost := event_loseFocus self s in
  let away := set_focusObject target lost in
  heap lost = <[self := set_monitoring false me]> (heap s) /\
  (monitoring <$> heap lost !! self) = Some false /\
  (monitoring me = false -> heap lost = heap s) /\
  timers lost = timers s /\
  trace lost = trace s ++ [super_event_loseFocus self] /\
  fire n away = set_timers (delete n (timers s)) away /\
  trace (fire n away) = trace away /\
  count isCapture (trace (fire n away)) = count isCapture (trace away) /\
  count isRecognize (trace (fire n away)) = count isRecognize (trace away) /\
  timers (fire n away) = delete n (timers s).
Proof.
  intros Hme Hres Ht Hself Htarget lost away.
  assert (Hlost : heap lost = <[self := set_monitoring false me]> (heap s)).
  { subst lost. unfold event_loseFocus, stopMonitoring. by rewrite Hme. }
  assert (Htimers : timers lost = timers s).
  { subst lost. unfold event_loseFocus, stopMonitoring. by rewrite Hme. }
  assert (Hfire : fire n away = set_timers (delete n (timers s)) away).
  { unfold fire. subst away. cbn [timers set_focusObject]. rewrite Htimers, Ht.
    unfold _recognize. cbn [heap set_timers set_focusObject].
    rewrite Hlost, Hself, lookup_insert_eq. cbn [result set_monitoring].
    rewrite Hres. unfold hasFocus. cbn [focusObject set_timers set_focusObject].
    destruct target as [o|o]; [done|].
    destruct (Nat.eqb_spec o self) as [->|]; [done|]. done. }
  split; [done|]. split; [by rewrite Hlost, lookup_insert_eq|].
  split. { intros Hidle. rewrite Hlost, set_monitoring_idle by done. by apply insert_id. }
  split; [done|].
  split. { subst lost. unfold event_loseFocus, stopMonitoring. by rewrite Hme. }
  split; [done|]. rewrite Hfire. done.
Qed.

Lemma focus_loss_defuses_timer_witness :
  fire 0 Scenario.live_dismissed
  = set_timers [] (set_focusObject (HostObject Scenario.desktop)
                     (event_loseFocus 0 Scenario.live_focused)) /\
  count isRecognize (trace (fire 0 Scenario.live_dismissed)) = 1.
Proof.
  pose proof (focus_loss_defuses_timer 0
                {| parent := HostObject Scenario.desktop;
                   result := Some Scenario.hello;
                   _selection := Some (viewAt Scenario.hello 0 0);
                   recognizer := Scenario.liveOcr;
                   imageInfo := mkRecogImageInfo 10 20 300 200 300 200;
                   obj_windowHandle := 4242; monitoring := true |}
                Scenario.live_focused (HostObject Scenario.desktop) 0
                {| delay := 1500; timer_self := 0; timer_onResult := OnResult |}
                eq_refl eq_refl eq_refl eq_refl ltac:(discriminate)) as H.
  cbv zeta in H. destruct H as (_ & _ & _ & _ & _ & H6 & _ & _ & H9 & _).
  split; [exact H6|exact H9].
Defined.

(** *** Manual refresh *)

Lemma resolves_in_range (sel : TextInfo) (r : RecognitionResult) :
  _startOffset sel <= _endOffset sel ->
  _endOffset sel <= String.length (res_text r) ->
  resolves (bookmark sel) r = true.
Proof.
  intros H1 H2. unfold resolves, bookmark. cbn.
  apply andb_true_iff. split; by apply Nat.leb_le.
Qed.

(** A zero-delay deferred recognition requested for a focused object runs
    one capture and one [recognize] when it comes due. *)
Lemma fire_requested (self : ObjId) (me : RecogResultNVDAObject) (s : State) :
  heap s !! self = Some me ->
  hasFocus self s = true ->
  fire (length (timers s)) (callLater 0 self OnResult s)
  = emits [captureImage (recogWidth (imageInfo me)) (recogHeight (imageInfo me))
             (screenLeft (imageInfo me)) (screenTop (imageInfo me))
             (screenWidth (imageInfo me)) (screenHeight (imageInfo me));
           recognizer_recognize (recognizer me) (imageInfo me) self OnResult] s.
Proof.
  intros Hme Hf. unfold fire, callLater. cbn [timers set_timers].
  rewrite list_lookup_middle by done. cbn [timer_self timer_onResult].
  rewrite delete_middle, app_nil_r. unfold _recognize. cbn [heap set_timers].
  rewrite Hme. unfold hasFocus in *. cbn [focusObject set_timers]. rewrite Hf.
  rewrite andb_false_r. destruct s. unfold emit, emits, set_trace. cbn.
  by rewrite <- app_assoc.
Qed.

(** C9. A manual refresh on an object whose recognizer refreshes
    automatically only speaks the message that the result is already
    updated automatically: no object, timer or queue changes and nothing is
    recognized.  Otherwise it requests one recognition with delay zero; when
    that comes due, the object still having focus, exactly one capture and
    one [recognize] call are made, and the success of that call replaces the
    result, keeps the offsets of the cursor when the text is unchanged, and
    arms nothing further. *)
Theorem manual_refresh (self : ObjId) (me : RecogResultNVDAObject) (s : State)
    (rOld r : RecognitionResult) (sel : TextInfo) :
  heap s !! self = Some me ->
  hasFocus self s = true ->
  result me = Some rOld ->
  _selection me = Some sel ->
  _startOffset sel <= _endOffset sel ->
  _endOffset sel <= String.length (res_text rOld) ->
  res_text r = res_text rOld ->
  let requested := script_refreshBuffer self s in
  if allowAutoRefresh (recognizer me)
  then
    requested = emit (ui_message
      "The result of content recognition is already automatically updated") s /\
    heap requested = heap s /\
    timers requested = timers s /\
    eventQueue requested = eventQueue s /\
    count isRecognize (trace requested) = count isRecognize (trace s)
  else
    let running := fire (length (timers s)) requested in
    timers requested = timers s ++ [{| delay := 0; timer_self := self;
                                       timer_onResult := OnResult |}] /\
    trace requested = trace s /\
    heap requested = heap s /\
    timers running = timers s /\
    trace running = trace s ++
      [captureImage (recogWidth (imageInfo me)) (recogHeight (imageInfo me))
         (screenLeft (imageInfo me)) (screenTop (imageInfo me))
         (screenWidth (imageInfo me)) (screenHeight (imageInfo me));
       recognizer_recognize (recognizer me) (imageInfo me) self OnResult] /\
    count isCapture (trace running) = count isCapture (trace s) + 1 /\
    count isRecognize (trace running) = count isRecognize (trace s) + 1 /\
    exists s' me',
      _onResult self (Recognized r) running = Returns s' /\
      heap s' !! self = Some me' /\
      result me' = Some r /\
      _selection me' = Some (viewAt r (_startOffset sel) (_endOffset sel)) /\
      (story <$> _selection me') = Some (res_text rOld) /\
      timers s' = timers s /\
      count isRecognize (trace s') = count isRecognize (trace s) + 1.
Proof.
  intros Hme Hf Hres Hsel Hle1 Hle2 Htext requested. subst requested.
  unfold script_refreshBuffer. rewrite Hme.
  destruct (allowAutoRefresh (recognizer me)) eqn:Hauto.
  { cbn. repeat split; try done. count_eval. lia. }
  cbv zeta. rewrite (fire_requested self me s Hme Hf).
  set (running := emits _ s).
  split; [done|]. split; [done|]. split; [done|]. split; [done|]. split; [done|].
  split. { subst running. cbn. count_eval. lia. }
  split. { subst running. cbn. count_eval. lia. }
  destruct (onResult_success self running me sel r) as (s' & E & _ & _ & Hh & _ & Ht & Htr);
    [done..|].
  rewrite resolves_in_range in Hh by (rewrite ?Htext; done).
  unfold armedIfAuto in Ht. rewrite Hauto in Ht.
  eexists s', _. split; [done|]. split; [by rewrite Hh, lookup_insert_eq|].
  split; [done|]. split; [done|]. split; [by cbn; rewrite Htext|]. split; [done|].
  rewrite Htr. subst running. cbn. count_eval. lia.
Qed.

Lemma manual_refresh_witness :
  count isRecognize (trace Scenario.manual_running) = 2 /\
  exists s' me',
    _onResult 0 (Recognized Scenario.hello) Scenario.manual_running = Returns s' /\
    heap s' !! 0 = Some me' /\
    _selection me' = Some {| story := "Hello world"; _startOffset := 6;
                             _endOffset := 6; activatable := false |} /\
    timers s' = [] /\
    count isRecognize (trace s') = 2.
Proof.
  pose proof (manual_refresh 0
                {| parent := HostObject Scenario.desktop;
                   result := Some Scenario.hello;
                   _selection := Some (viewAt Scenario.hello 6 6);
                   recognizer := Scenario.ocr;
                   imageInfo := mkRecogImageInfo 10 20 300 200 300 200;
                   obj_windowHandle := 4242; monitoring := false |}
                Scenario.ocr_reading Scenario.hello Scenario.hello
                (viewAt Scenario.hello 6 6)
                eq_refl eq_refl eq_refl eq_refl (le_n 6) ltac:(cbn; lia) eq_refl) as H.
  cbv zeta in H. cbn [allowAutoRefresh recognizer Scenario.ocr] in H.
  destruct H as (_ & _ & _ & _ & _ & _ & H7 & s' & me' & E & H2 & _ & H4 & _ & H6 & H8).
  split; [exact H7|]. exists s', me'.
  split; [exact E|]. split; [exact H2|]. split; [exact H4|].
  split; [exact H6|exact H8].
Defined.

(** The refusal, on a session that refreshes automatically. *)
Example manual_refresh_refused :
  script_refreshBuffer 0 Scenario.live_reading
  = emit (ui_message
      "The result of content recognition is already automatically updated")
      Scenario.live_reading.
Proof. reflexivity. Qed.

(** ** What holds in every reachable state *)

Import Lifecycle.

Section Invariant.

Lemma hasResult_heap (s s' : State) (o : ObjId) :
  heap s' = heap s -> hasResult s o -> hasResult s' o.
Proof. intros E (me & H1 & H2). exists me. by rewrite E. Qed.

Lemma awaiting_not_hasResult (s : State) (o : ObjId) :
  awaiting s o -> hasResult s o -> False.
Proof.
  intros (me & H1 & H2) (me' & H3 & H4). rewrite H1 in H3. injection H3 as <-.
  unfold presented in H4. by rewrite H2 in H4.
Qed.

(** A step that leaves the objects alone. *)
Lemma Inv_same (s s' : State) :
  Inv s ->
  heap s' = heap s ->
  (forall o, focusObject s' = ResultObject o ->
     focusObject s = ResultObject o \/ hasResult s o) ->
  (forall o, queueEvent_gainFocus o ∈ eventQueue s' ->
     queueEvent_gainFocus o ∈ eventQueue s \/ hasResult s o) ->
  (forall t, t ∈ timers s' -> t ∈ timers s \/ hasResult s (timer_self t)) ->
  (forall o, _activeRecog s' = Some o -> _activeRecog s = Some o) ->
  Inv s'.
Proof.
  intros [I1 I2 I3 I4 I5] Hh Hf Hq Ht Ha. split.
  - intros o Ho. apply (hasResult_heap s s' o Hh). destruct (Hf o Ho); auto.
  - intros o Ho. apply (hasResult_heap s s' o Hh). destruct (Hq o Ho); auto.
  - intros t Hin. apply (hasResult_heap s s' _ Hh). destruct (Ht t Hin); auto.
  - intros o me. rewrite Hh. apply I4.
  - intros o Ho. destruct (I5 o (Ha o Ho)) as (me & H1 & H2). exists me. by rewrite Hh.
Qed.

(** A step that writes one object. *)
Lemma Inv_update (s s' : State) (k : ObjId) (v : RecogResultNVDAObject) :
  Inv s ->
  heap s' = <[k := v]> (heap s) ->
  (forall me, heap s !! k = Some me -> presented me = true -> presented v = true) ->
  isRecogResult (parent v) = false ->
  (forall o, focusObject s' = ResultObject o ->
     focusObject s = ResultObject o \/ hasResult s' o) ->
  (forall o, queueEvent_gainFocus o ∈ eventQueue s' ->
     queueEvent_gainFocus o ∈ eventQueue s \/ hasResult s' o) ->
  (forall t, t ∈ timers s' -> t ∈ timers s \/ hasResult s' (timer_self t)) ->
  (forall o, _activeRecog s' = Some o ->
     (o = k /\ result v = None) \/ (o <> k /\ _activeRecog s = Some o)) ->
  Inv s'.
Proof.
  intros [I1 I2 I3 I4 I5] Hh Hp Hpar Hf Hq Ht Ha.
  assert (Hmono : forall o, hasResult s o -> hasResult s' o).
  { intros o (me & H1 & H2). unfold hasResult. rewrite Hh.
    destruct (decide (k = o)) as [->|Hne].
    - exists v. rewrite lookup_insert_eq. eauto.
    - exists me. by rewrite lookup_insert_ne. }
  split.
  - intros o Ho. destruct (Hf o Ho); auto.
  - intros o Ho. destruct (Hq o Ho); auto.
  - intros t Hin. destruct (Ht t Hin); auto.
  - intros o me. rewrite Hh. destruct (decide (k = o)) as [->|Hne].
    + rewrite lookup_insert_eq. by intros [= <-].
    + rewrite lookup_insert_ne by done. apply I4.
  - intros o Ho. unfold awaiting. rewrite Hh.
    destruct (Ha o Ho) as [[-> Hv]|[Hne Hact]].
    + exists v. by rewrite lookup_insert_eq.
    + destruct (I5 o Hact) as (me & H1 & H2). exists me.
      by rewrite lookup_insert_ne.
Qed.

Lemma Inv_idle (focus nav : NVDAObject) : Inv (idle focus nav).
Proof.
  split; cbn; try done.
  - intros o Ho. by apply elem_of_nil in Ho.
  - intros t Ht. by apply elem_of_nil in Ht.
Qed.

End Invariant.

Section Preservation.

Variable s : State.
Hypothesis HI : Inv s.

Lemma cancelActive_emits (s0 : State) : exists es, cancelActive s0 = emits es s0.
Proof.
  unfold cancelActive. destruct (_activeRecog s0) as [old|].
  - destruct (heap s0 !! old) as [o|].
    + by exists [recognizer_cancel (recognizer o)].
    + exists []. by rewrite emits_nil.
  - exists []. by rewrite emits_nil.
Qed.

Lemma Inv_emits (es : list Effect) : Inv (emits es s).
Proof. apply (Inv_same s); auto. Qed.

Lemma Inv_request (rec : ContentRecognizer) : Inv (recognizeNavigatorObject rec s).
Proof.
  destruct (failingGuard rec s) as [g|] eqn:Hg.
  - rewrite (recognizeNavigatorObject_guard rec s g Hg). apply Inv_emits.
  - destruct (failingGuard_None rec s Hg) as (l & t & w & h & imgInfo & H1 & H2 & H3 & H4 & H5).
    rewrite (recognizeNavigatorObject_pass rec s l t w h imgInfo H1 H2 H3 H4 H5).
    destruct (cancelActive_emits (emits (recognizerSpoke rec s) s)) as (es & ->).
    set (s4 := emit _ _).
    destruct (installAndStart_spec rec imgInfo s4) as (Hfree & A1 & A2 & _ & A4 & A5 & A6).
    eapply (Inv_update s); [done|exact A2|..].
    + intros me Hme. exfalso.
      assert (E : Some me = None) by (rewrite <- Hme; exact Hfree). done.
    + exact H1.
    + intros o. rewrite A6. auto.
    + intros o. rewrite A5. auto.
    + intros t'. rewrite A4. auto.
    + intros o. rewrite A1. intros [= <-]. by left.
Qed.

Lemma Inv_firstResult (self : ObjId) (res : RecognizeOutcome) :
  Inv (stateOf (_onFirstResult self res s)).
Proof.
  destruct res as [r|exc].
  - destruct (heap s !! self) as [me|] eqn:Hme.
    + destruct (onFirstResult_success self me s Hme r)
        as (s' & -> & A1 & A2 & A3 & A4 & A5 & _). cbn [stateOf].
      assert (Hself : hasResult s' self).
      { exists (set_selection (Some (viewAt r 0 0)) (set_result (Some r) me)).
        by rewrite A3, lookup_insert_eq. }
      eapply (Inv_update s); [done|exact A3|done|..].
      * cbn. by apply (inv_parents s HI self me).
      * intros o. rewrite A2. auto.
      * intros o. rewrite A4, elem_of_app, list_elem_of_singleton.
        intros [?|[= <-]]; auto.
      * intros t. rewrite A5. unfold armedIfAuto.
        destruct (allowAutoRefresh (recognizer me)); [|auto].
        rewrite elem_of_app, list_elem_of_singleton. intros [?| ->]; auto.
      * intros o. by rewrite A1.
    + unfold _onFirstResult. cbn. rewrite Hme. cbn.
      apply (Inv_same s); cbn; auto; by intros.
  - cbn. apply (Inv_same s); cbn; auto; [|done].
    intros o. rewrite elem_of_app, list_elem_of_singleton. intros [?|[=]]; auto.
Qed.

Lemma focused_hasResult (self : ObjId) :
  hasFocus self s = true -> hasResult s self.
Proof.
  unfold hasFocus. destruct (focusObject s) as [h|o] eqn:Hf; [done|].
  intros ->%Nat.eqb_eq. by apply (inv_focus s HI).
Qed.

Lemma presented_fields (me : RecogResultNVDAObject) :
  presented me = true ->
  exists r sel, result me = Some r /\ _selection me = Some sel.
Proof.
  unfold presented. destruct (result me) as [r|]; [|done].
  destruct (_selection me) as [sel|]; [|done]. eauto.
Qed.

Lemma not_active_when_presented (self : ObjId) (me : RecogResultNVDAObject) :
  heap s !! self = Some me -> presented me = true ->
  forall o, _activeRecog s = Some o -> o <> self.
Proof.
  intros Hme Hp o Ho ->. apply (awaiting_not_hasResult s self).
  - by apply (inv_active s HI).
  - by exists me.
Qed.

Lemma Inv_result (self : ObjId) (res : RecognizeOutcome) :
  Inv (stateOf (_onResult self res s)).
Proof.
  destruct (hasFocus self s) eqn:Hf.
  2:{ by rewrite onResult_unfocused. }
  destruct (focused_hasResult self Hf) as (me & Hme & Hp).
  destruct (presented_fields me Hp) as (r0 & sel & Hr & Hsel).
  destruct res as [r|exc].
  - destruct (onResult_success self s me sel r Hf Hme Hsel)
      as (s' & -> & A1 & A2 & A3 & A4 & A5 & _). cbn [stateOf].
    assert (Hself : hasResult s' self).
    { eexists. rewrite A3, lookup_insert_eq. split; [done|].
      unfold presented. cbn. done. }
    eapply (Inv_update s); [done|exact A3|done|..].
    + cbn. by apply (inv_parents s HI self me).
    + intros o. rewrite A2. auto.
    + intros o. rewrite A4. auto.
    + intros t. rewrite A5. unfold armedIfAuto.
      destruct (allowAutoRefresh (recognizer me)); [|auto].
      rewrite elem_of_app, list_elem_of_singleton. intros [?| ->]; auto.
    + intros o. rewrite A1. intros Ho. right.
      split; [by apply (not_active_when_presented self me)|done].
  - destruct (onResult_failure self s me exc Hf Hme)
      as (s' & -> & A1 & A2 & A3 & A4 & A5 & _). cbn [stateOf].
    eapply (Inv_update s); [done|exact A3|done|..].
    + cbn. by apply (inv_parents s HI self me).
    + intros o. rewrite A2. auto.
    + intros o. rewrite A4, elem_of_app, list_elem_of_singleton.
      intros [?|[=]]; auto.
    + intros t. rewrite A5. auto.
    + intros o. rewrite A1. intros Ho. right.
      split; [by apply (not_active_when_presented self me)|done].
Qed.

End Preservation.

Lemma recognize_emits (self : ObjId) (cb : Callback) (s : State) :
  exists es, _recognize self cb s = emits es s.
Proof.
  unfold _recognize. destruct (heap s !! self) as [me|].
  - destruct (truthy (result me) && negb (hasFocus self s)).
    + exists []. by rewrite emits_nil.
    + eexists [_; _]. destruct s. unfold emit, emits, set_trace. cbn.
      by rewrite <- app_assoc.
  - exists []. by rewrite emits_nil.
Qed.

Lemma Inv_set_timers (s : State) (ts : list Timer) :
  Inv s -> (forall t, t ∈ ts -> t ∈ timers s \/ hasResult s (timer_self t)) ->
  Inv (set_timers ts s).
Proof. intros HI Hts. apply (Inv_same s); auto. Qed.

Lemma Inv_fire (s : State) (n : nat) : Inv s -> Inv (fire n s).
Proof.
  intros HI. unfold fire. destruct (timers s !! n) as [t|]; [|done].
  destruct (recognize_emits (timer_self t) (timer_onResult t)
              (set_timers (delete n (timers s)) s)) as (es & ->).
  apply Inv_emits, Inv_set_timers; [done|].
  intros t' Hin. left. by apply list_elem_of_delete_inv in Hin.
Qed.

Lemma Inv_set_monitoring (s : State) (o : ObjId) (b : bool) (me : RecogResultNVDAObject) :
  Inv s -> heap s !! o = Some me -> Inv (store o (set_monitoring b me) s).
Proof.
  intros HI Hme. eapply (Inv_update s); [done|reflexivity|..]; cbn; auto.
  - intros me0 E. rewrite Hme in E. by injection E as <-.
  - by apply (inv_parents s HI o me).
  - intros o' Ho'. destruct (decide (o' = o)) as [->|]; [left|right; done].
    split; [done|]. destruct (inv_active s HI o Ho') as (me' & H1 & H2). congruence.
Qed.

Lemma Inv_event_loseFocus (s : State) (o : ObjId) : Inv s -> Inv (event_loseFocus o s).
Proof.
  intros HI. unfold event_loseFocus. change (emit ?e ?x) with (emits [e] x).
  apply Inv_emits. unfold stopMonitoring.
  destruct (heap s !! o) as [me|] eqn:Hme; [|done]. by apply Inv_set_monitoring.
Qed.

Lemma Inv_event_gainFocus (s : State) (o : ObjId) : Inv s -> Inv (event_gainFocus o s).
Proof.
  intros HI. unfold event_gainFocus.
  assert (HI1 : Inv (emit (super_event_gainFocus o) s)) by apply (Inv_emits s HI [_]).
  destruct (heap (emit (super_event_gainFocus o) s) !! o) as [me|] eqn:Hme; [|done].
  destruct (allowAutoRefresh (recognizer me)); [|done].
  unfold startMonitoring. rewrite Hme. by apply Inv_set_monitoring.
Qed.

Lemma Inv_set_focusObject (s : State) (target : ObjRef) :
  Inv s ->
  (forall o, target = ResultObject o -> hasResult s o) ->
  Inv (set_focusObject target s).
Proof. intros HI Ht. apply (Inv_same s); cbn; auto. Qed.

Lemma hasResult_event_loseFocus (s : State) (old o : ObjId) :
  hasResult s o -> hasResult (event_loseFocus old s) o.
Proof.
  intros (me & Hme & Hp). unfold event_loseFocus, stopMonitoring, hasResult. cbn.
  destruct (heap s !! old) as [me'|] eqn:Hold; cbn; [|eauto].
  destruct (decide (old = o)) as [->|Hne].
  - rewrite lookup_insert_eq. eexists. split; [done|].
    rewrite Hme in Hold. by injection Hold as <-.
  - rewrite lookup_insert_ne by done. eauto.
Qed.

Lemma Inv_host_gainFocus (s : State) (target : ObjRef) :
  Inv s ->
  (forall o, target = ResultObject o -> hasResult s o) ->
  Inv (host_gainFocus target s).
Proof.
  intros HI Ht. unfold host_gainFocus.
  set (s1 := match focusObject s with ResultObject old => _ | HostObject _ => s end).
  assert (HI1 : Inv s1).
  { subst s1. destruct (focusObject s); [done|by apply Inv_event_loseFocus]. }
  assert (Ht1 : forall o, target = ResultObject o -> hasResult s1 o).
  { intros o Ho. subst s1. destruct (focusObject s); [auto|].
    by apply hasResult_event_loseFocus, Ht. }
  pose proof (Inv_set_focusObject s1 target HI1 Ht1) as HI2.
  destruct target; [done|]. by apply Inv_event_gainFocus.
Qed.

Lemma Inv_dispatch (s : State) (q : QueueItem) (rest : list QueueItem) :
  Inv s -> eventQueue s = q :: rest -> Inv (dispatch q (set_eventQueue rest s)).
Proof.
  intros HI Hq.
  assert (HI1 : Inv (set_eventQueue rest s)).
  { apply (Inv_same s); cbn; auto. intros o Ho. left. rewrite Hq. by right. }
  destruct q as [o|text]; cbn [dispatch].
  - apply Inv_host_gainFocus; [done|]. intros o' [= <-].
    apply (hasResult_heap s); [done|]. apply (inv_queue s HI). rewrite Hq. by left.
  - apply (Inv_emits _ HI1 [_]).
Qed.

Lemma Inv_refreshBuffer (s : State) (self : ObjId) :
  Inv s -> hasFocus self s = true -> Inv (script_refreshBuffer self s).
Proof.
  intros HI Hf. unfold script_refreshBuffer.
  destruct (heap s !! self) as [me|]; [|done].
  destruct (allowAutoRefresh (recognizer me)); [apply (Inv_emits s HI [_])|].
  apply Inv_set_timers; [done|]. intros t.
  rewrite elem_of_app, list_elem_of_singleton. intros [?| ->]; [by left|right].
  by apply focused_hasResult.
Qed.

Lemma Inv_activatePosition (s : State) (self : ObjId) :
  Inv s -> Inv (stateOf (script_activatePosition self s)).
Proof.
  intros HI. unfold script_activatePosition.
  destruct (heap s !! self) as [me|]; [|done].
  destruct (_selection me) as [ti|]; [|done].
  destruct (activatable ti); apply (Inv_emits s HI [_]).
Qed.

Lemma Inv_moveCursor (s : State) (self : ObjId) (ti : TextInfo) :
  Inv s -> Inv (selection_setter self ti s).
Proof.
  intros HI. unfold selection_setter.
  destruct (heap s !! self) as [me|] eqn:Hme; [|done].
  eapply (Inv_update s); [done|reflexivity|..]; cbn; auto.
  - intros me0 E. rewrite Hme in E. injection E as <-.
    unfold presented. cbn. by destruct (result me).
  - by apply (inv_parents s HI self me).
  - intros o' Ho'. destruct (decide (o' = self)) as [->|]; [left|right; done].
    split; [done|]. destruct (inv_active s HI self Ho') as (me' & H1 & H2). congruence.
Qed.

Lemma Inv_dismiss (s : State) (self : ObjId) : Inv s -> Inv (dismiss self s).
Proof.
  intros HI. unfold dismiss. destruct (heap s !! self) as [me|] eqn:Hme; [|done].
  apply Inv_host_gainFocus.
  - unfold script_exit. rewrite Hme. apply (Inv_emits s HI [_]).
  - intros o Ho. pose proof (inv_parents s HI self me Hme) as Hp.
    rewrite Ho in Hp. done.
Qed.

Lemma Inv_Step (s s' : State) : Inv s -> Step s s' -> Inv s'.
Proof.
  intros HI Hstep. destruct Hstep.
  - by apply Inv_request.
  - by apply Inv_firstResult.
  - by apply Inv_result.
  - by apply Inv_fire.
  - by apply Inv_dispatch.
  - by apply Inv_host_gainFocus.
  - apply (Inv_same s); cbn; auto.
  - by apply Inv_refreshBuffer.
  - by apply Inv_activatePosition.
  - apply (Inv_emits s HI [_]).
  - by apply Inv_moveCursor.
  - by apply Inv_dismiss.
Qed.

Lemma Reachable_Inv (s : State) : Reachable s -> Inv s.
Proof.
  induction 1 as [focus nav|s s' _ IH Hstep].
  - apply Inv_idle.
  - by apply (Inv_Step s).
Qed.

(** ** Further properties of the sessions *)

Import Run.

(** The states of the run are reachable. *)
Lemma run_reachable :
  Reachable requested /\ Reachable answered /\ Reachable shown /\ Reachable closed.
Proof.
  assert (R1 : Reachable requested).
  { eapply reach_step; [apply reach_idle|apply step_request]. }
  assert (R2 : Reachable answered).
  { eapply reach_step; [exact R1|apply step_firstResult]. }
  assert (R3 : Reachable shown).
  { eapply reach_step; [exact R2|]. by apply step_dispatch. }
  repeat split; try done.
  eapply reach_step; [exact R3|]. by apply step_exit.
Qed.

Lemma run_once_reachable :
  Reachable requested_once /\ Reachable answered_once /\ Reachable shown_once.
Proof.
  assert (R1 : Reachable requested_once).
  { eapply reach_step; [apply reach_idle|apply step_request]. }
  assert (R2 : Reachable answered_once).
  { eapply reach_step; [exact R1|apply step_firstResult]. }
  repeat split; try done.
  eapply reach_step; [exact R2|]. by apply step_dispatch.
Qed.

(** X1. In every reachable state the object that has focus has a result and
    a cursor: selection and caret are answered (the caret is the selection
    collapsed to its start) and activating the position does not raise. *)
Theorem focused_result_is_readable (s : State) (self : ObjId) :
  Reachable s ->
  hasFocus self s = true ->
  exists me r sel s',
    heap s !! self = Some me /\
    result me = Some r /\
    _selection me = Some sel /\
    makeTextInfo me POSITION_SELECTION = Some sel /\
    makeTextInfo me POSITION_CARET = Some (collapse sel) /\
    isCollapsed (collapse sel) = true /\
    _startOffset (collapse sel) = _startOffset sel /\
    script_activatePosition self s = Returns s'.
Proof.
  intros HR Hf. pose proof (Reachable_Inv s HR) as HI.
  destruct (focused_hasResult s HI self Hf) as (me & Hme & Hp).
  destruct (presented_fields me Hp) as (r & sel & Hr & Hsel).
  assert (exists s', script_activatePosition self s = Returns s') as [s' Hs'].
  { unfold script_activatePosition. rewrite Hme, Hsel.
    destruct (activatable sel); by eexists. }
  exists me, r, sel, s'. unfold makeTextInfo. rewrite Hsel.
  repeat split; try done. unfold isCollapsed. cbn. apply Nat.eqb_refl.
Qed.

Lemma focused_result_is_readable_witness :
  exists me s',
    heap shown !! 0 = Some me /\
    makeTextInfo me POSITION_CARET
    = Some {| story := "Hello world"; _startOffset := 0; _endOffset := 0;
              activatable := false |} /\
    script_activatePosition 0 shown = Returns s'.
Proof.
  destruct (focused_result_is_readable shown 0 (proj1 (proj2 (proj2 run_reachable)))
              eq_refl)
    as (me & r & sel & s' & H1 & H2 & H3 & H4 & H5 & _ & _ & H8).
  exists me, s'. split; [exact H1|]. split; [|exact H8].
  rewrite H5. assert (E : Some sel = Some (viewAt Scenario.hello 0 0)).
  { rewrite <- H3. revert H1. cbn. by intros [= <-]. }
  by injection E as ->.
Defined.

(** X2. In every reachable state the refresh callback returns normally,
    whatever object and outcome it is called with: it never reads a cursor
    that was not set. *)
Theorem refresh_callback_returns (s : State) (self : ObjId) (res : RecognizeOutcome) :
  Reachable s ->
  exists s', _onResult self res s = Returns s'.
Proof.
  intros HR. pose proof (Reachable_Inv s HR) as HI.
  destruct (hasFocus self s) eqn:Hf.
  2:{ exists s. by apply onResult_unfocused. }
  destruct (focused_hasResult s HI self Hf) as (me & Hme & Hp).
  destruct (presented_fields me Hp) as (r0 & sel & Hr & Hsel).
  destruct res as [r|exc].
  - destruct (onResult_success self s me sel r Hf Hme Hsel) as (s' & E & _). eauto.
  - destruct (onResult_failure self s me exc Hf Hme) as (s' & E & _). eauto.
Qed.

Lemma refresh_callback_returns_witness :
  exists s', _onResult 0 (Recognized Scenario.helloUpper) shown = Returns s'.
Proof.
  exact (refresh_callback_returns shown 0 (Recognized Scenario.helloUpper)
           (proj1 (proj2 (proj2 run_reachable)))).
Defined.

(** X3. In every reachable state the session [_activeRecog] refers to is
    still waiting for its first result: it has no result, does not have
    focus, has no gainFocus event queued and no deferred recognition
    pending.  So [cancel()] only ever goes to the recognizer of a session
    that has presented nothing yet. *)
Theorem active_session_awaits_first_result (s : State) (o : ObjId) :
  Reachable s ->
  _activeRecog s = Some o ->
  (exists me, heap s !! o = Some me /\ result me = None) /\
  hasFocus o s = false /\
  (queueEvent_gainFocus o ∉ eventQueue s) /\
  (forall t, t ∈ timers s -> timer_self t <> o).
Proof.
  intros HR Ho. pose proof (Reachable_Inv s HR) as HI.
  pose proof (inv_active s HI o Ho) as Haw.
  split; [exact Haw|]. split.
  - destruct (hasFocus o s) eqn:Hf; [|done]. exfalso.
    apply (awaiting_not_hasResult s o Haw). by apply focused_hasResult.
  - split.
    + intros Hin. apply (awaiting_not_hasResult s o Haw). by apply (inv_queue s HI).
    + intros t Hin <-. apply (awaiting_not_hasResult s _ Haw).
      by apply (inv_timers s HI).
Qed.

Lemma active_session_awaits_first_result_witness :
  (exists me, heap requested !! 0 = Some me /\ result me = None) /\
  hasFocus 0 requested = false.
Proof.
  destruct (active_session_awaits_first_result requested 0 (proj1 run_reachable) eq_refl)
    as (H1 & H2 & _).
  split; [exact H1|exact H2].
Defined.

(** X4. In every reachable state a deferred recognition that comes due for
    an object without focus only leaves the pending list: nothing is
    captured, nothing is recognized, nothing else changes.  For an object
    with focus it captures the region of the object and calls its
    recognizer, once. *)
Theorem due_call_recognizes_only_with_focus (s : State) (n : nat) (t : Timer) :
  Reachable s ->
  timers s !! n = Some t ->
  exists me,
    heap s !! timer_self t = Some me /\
    if hasFocus (timer_self t) s
    then fire n s
         = emits [captureImage (recogWidth (imageInfo me)) (recogHeight (imageInfo me))
                    (screenLeft (imageInfo me)) (screenTop (imageInfo me))
                    (screenWidth (imageInfo me)) (screenHeight (imageInfo me));
                  recognizer_recognize (recognizer me) (imageInfo me)
                    (timer_self t) (timer_onResult t)]
             (set_timers (delete n (timers s)) s)
    else fire n s = set_timers (delete n (timers s)) s.
Proof.
  intros HR Ht. pose proof (Reachable_Inv s HR) as HI.
  destruct (inv_timers s HI t) as (me & Hme & Hp).
  { by apply list_elem_of_lookup_2 in Ht. }
  destruct (presented_fields me Hp) as (r & sel & Hr & Hsel).
  exists me. split; [done|]. unfold fire. rewrite Ht. unfold _recognize.
  cbn [heap set_timers]. rewrite Hme, Hr. cbn [truthy andb].
  change (hasFocus (timer_self t) (set_timers (delete n (timers s)) s))
    with (hasFocus (timer_self t) s).
  destruct (hasFocus (timer_self t) s); cbn [negb]; [|done].
  unfold emit, emits, set_trace. cbn. by rewrite <- app_assoc.
Qed.

Lemma due_call_recognizes_only_with_focus_witness :
  fire 0 closed = set_timers [] closed /\
  count isRecognize (trace (fire 0 shown)) = count isRecognize (trace shown) + 1.
Proof.
  split.
  - destruct (due_call_recognizes_only_with_focus closed 0
                {| delay := 1500; timer_self := 0; timer_onResult := OnResult |}
                (proj2 (proj2 (proj2 run_reachable))) eq_refl) as (me & _ & H).
    exact H.
  - reflexivity.
Defined.

(** X5. In every reachable state the parent of a result object is an object
    of the host, never another result.  Dismissing the focused result
    therefore gives the focus to a host object; the result loses the focus,
    stops monitoring, keeps its result, and its deferred recognitions stay
    pending. *)
Theorem dismissing_returns_focus_to_host (s : State) (self : ObjId) :
  Reachable s ->
  hasFocus self s = true ->
  exists me h,
    heap s !! self = Some me /\
    parent me = HostObject h /\
    focusObject (dismiss self s) = HostObject h /\
    hasFocus self (dismiss self s) = false /\
    heap (dismiss self s) = <[self := set_monitoring false me]> (heap s) /\
    timers (dismiss self s) = timers s /\
    trace (dismiss self s)
    = trace s ++ [executeEvent_gainFocus (HostObject h); super_event_loseFocus self].
Proof.
  intros HR Hf. pose proof (Reachable_Inv s HR) as HI.
  destruct (focused_hasResult s HI self Hf) as (me & Hme & Hp).
  pose proof (inv_parents s HI self me Hme) as Hpar.
  destruct (parent me) as [h|o] eqn:Hparent; [|done].
  exists me, h. split; [done|]. split; [done|].
  unfold hasFocus in Hf. destruct (focusObject s) as [|o] eqn:Hfocus; [done|].
  apply Nat.eqb_eq in Hf. subst o.
  unfold dismiss, script_exit, host_gainFocus. rewrite Hme, Hparent. cbn.
  rewrite Hfocus. unfold event_loseFocus, stopMonitoring. cbn. rewrite Hme. cbn.
  repeat split; try done. by rewrite <- app_assoc.
Qed.

Lemma dismissing_returns_focus_to_host_witness :
  focusObject (dismiss 0 shown) = HostObject Scenario.desktop /\
  timers (dismiss 0 shown) = timers shown.
Proof.
  destruct (dismissing_returns_focus_to_host shown 0
              (proj1 (proj2 (proj2 run_reachable))) eq_refl)
    as (me & h & H1 & H2 & H3 & _ & _ & H6 & _).
  split; [|exact H6]. rewrite H3. f_equal.
  assert (E : HostObject h = HostObject Scenario.desktop).
  { rewrite <- H2. revert H1. cbn. by intros [= <-]. }
  by injection E.
Defined.

(** X6. Whatever its outcome, [recognizeNavigatorObject] leaves every
    existing result object exactly as it was, moves neither the focus nor
    the navigator object, queues no event and arms or cancels no deferred
    recognition; it only adds to the trace and allocates at most one new
    object, which has no result, no cursor and is not monitoring. *)
Theorem request_leaves_sessions_alone (rec : ContentRecognizer) (s : State) :
  let s' := recognizeNavigatorObject rec s in
  focusObject s' = focusObject s /\
  navigatorObject s' = navigatorObject s /\
  eventQueue s' = eventQueue s /\
  timers s' = timers s /\
  enteringFromOutside s' = enteringFromOutside s /\
  (forall o me, heap s !! o = Some me -> heap s' !! o = Some me) /\
  (exists es, trace s' = trace s ++ es) /\
  (heap s' = heap s \/
   exists me, heap s !! fresh (dom (heap s)) = None /\
              heap s' = <[fresh (dom (heap s)) := me]> (heap s) /\
              result me = None /\ _selection me = None /\ monitoring me = false /\
              recognizer me = rec).
Proof.
  intros s'. subst s'. destruct (failingGuard rec s) as [g|] eqn:Hg.
  - rewrite (recognizeNavigatorObject_guard rec s g Hg). cbn.
    repeat split; try done; eauto.
  - destruct (failingGuard_None rec s Hg) as (l & t & w & h & imgInfo & H1 & H2 & H3 & H4 & H5).
    rewrite (recognizeNavigatorObject_pass rec s l t w h imgInfo H1 H2 H3 H4 H5).
    destruct (cancelActive_emits (emits (recognizerSpoke rec s) s)) as (es & ->).
    set (s4 := emit _ _).
    destruct (installAndStart_spec rec imgInfo s4) as (Hfree & _ & A2 & A3 & A4 & A5 & A6).
    change (heap s4) with (heap s) in *.
    split; [done|]. split.
    { unfold installAndStart, RefreshableRecogResultNVDAObject_init, start, _recognize.
      cbn. rewrite lookup_insert_eq. done. }
    split; [done|]. split; [done|]. split.
    { unfold installAndStart, RefreshableRecogResultNVDAObject_init, start, _recognize.
      cbn. rewrite lookup_insert_eq. done. }
    split.
    { intros o me Hme. rewrite A2. rewrite lookup_insert_ne; [done|].
      intros E. rewrite E in Hfree. congruence. }
    split.
    { rewrite A3. subst s4. cbn. rewrite <- !app_assoc. eauto. }
    right. eexists. split; [exact Hfree|]. split; [exact A2|]. done.
Qed.

(** X7. A request that passes the guards is made while the focus is on a
    host object, and the new result object takes that object as its parent
    and its window handle.  Until its first result arrives the new object
    answers no position at all: every [makeTextInfo] fails, and activating
    the position raises. *)
Theorem new_session_hangs_off_the_focus (rec : ContentRecognizer) (s : State) :
  failingGuard rec s = None ->
  let new : ObjId := fresh (dom (heap s)) in
  let s' := recognizeNavigatorObject rec s in
  exists h me,
    focusObject s = HostObject h /\
    heap s' !! new = Some me /\
    parent me = HostObject h /\
    obj_windowHandle me = windowHandle h /\
    recognizer me = rec /\
    (forall position, makeTextInfo me position = None) /\
    script_activatePosition new s' = Raises (AttributeError "_selection") s'.
Proof.
  intros Hg new s'.
  destruct (failingGuard_None rec s Hg) as (l & t & w & h & imgInfo & H1 & H2 & H3 & H4 & H5).
  subst s'. rewrite (recognizeNavigatorObject_pass rec s l t w h imgInfo H1 H2 H3 H4 H5).
  destruct (focusObject s) as [host|o] eqn:Hfocus; [|done].
  destruct (cancelActive_emits (emits (recognizerSpoke rec s) s)) as (es & ->).
  set (s4 := emit _ _).
  destruct (installAndStart_spec rec imgInfo s4) as (_ & _ & A2 & _).
  change (heap s4) with (heap s) in A2. change (focusObject s4) with (focusObject s) in A2.
  fold new in A2.
  exists host. eexists. split; [done|]. split; [by rewrite A2, lookup_insert_eq|].
  cbn [parent obj_windowHandle recognizer]. rewrite Hfocus.
  repeat split; try done.
  - by intros [].
  - unfold script_activatePosition. by rewrite A2, lookup_insert_eq.
Qed.

Lemma new_session_hangs_off_the_focus_witness :
  exists me,
    heap requested_on_page !! 0 = Some me /\
    parent me = HostObject webPage /\
    obj_windowHandle me = 777%Z /\
    makeTextInfo me POSITION_FIRST = None.
Proof.
  destruct (new_session_hangs_off_the_focus Scenario.ocr (idle webPage webPage) eq_refl)
    as (h & me & H1 & H2 & H3 & H4 & _ & H6 & _).
  injection H1 as <-.
  exists me. split; [exact H2|]. split; [exact H3|]. split; [exact H4|apply H6].
Defined.

(** X8. The first result of a session whose parent lies in a browse mode
    document flags that document's tree interceptor as entered from
    outside, in addition to queueing the gainFocus event; for any other
    parent, and on a failure, no flag changes. *)
Theorem first_result_flags_browse_mode_parent (self : ObjId)
    (me : RecogResultNVDAObject) (r : RecognitionResult) (exc : string) (s : State) :
  heap s !! self = Some me ->
  enteringFromOutside (stateOf (_onFirstResult self (Recognized r) s))
  = match ref_treeInterceptor (parent me) with
    | Some ti =>
        if isBrowseModeDocument ti
        then {[ti_id ti]} ∪ enteringFromOutside s
        else enteringFromOutside s
    | None => enteringFromOutside s
    end /\
  enteringFromOutside (stateOf (_onFirstResult self (Failed exc) s))
  = enteringFromOutside s /\
  (isRecogResult (parent me) = true ->
   enteringFromOutside (stateOf (_onFirstResult self (Recognized r) s))
   = enteringFromOutside s).
Proof.
  intros Hme.
  assert (E : enteringFromOutside (stateOf (_onFirstResult self (Recognized r) s))
              = match ref_treeInterceptor (parent me) with
                | Some ti =>
                    if isBrowseModeDocument ti
                    then {[ti_id ti]} ∪ enteringFromOutside s
                    else enteringFromOutside s
                | None => enteringFromOutside s
                end).
  { unfold _onFirstResult. cbn. rewrite Hme. cbn. unfold setFocus. cbn.
    destruct (ref_treeInterceptor (parent me)) as [ti|];
      [destruct (isBrowseModeDocument ti)|];
      by destruct (allowAutoRefresh (recognizer me)). }
  split; [exact E|]. split; [done|].
  intros Hp. rewrite E. by destruct (parent me).
Qed.

Lemma first_result_flags_browse_mode_parent_witness :
  enteringFromOutside
    (stateOf (_onFirstResult 0 (Recognized Scenario.hello) requested_on_page))
  = {[5]} ∪ ∅.
Proof.
  exact (proj1 (first_result_flags_browse_mode_parent 0
                  {| parent := HostObject webPage; result := None;
                     _selection := None; recognizer := Scenario.ocr;
                     imageInfo := mkRecogImageInfo 0 0 640 480 640 480;
                     obj_windowHandle := 777; monitoring := false |}
                  Scenario.hello "none" requested_on_page eq_refl)).
Defined.

(** X9. Activating the position on an object that has a cursor never
    raises and never speaks: a view that implements activation is
    activated, one that does not is only logged at debug level.  Nothing
    but the trace changes. *)
Theorem activation_is_logged_not_spoken (self : ObjId) (me : RecogResultNVDAObject)
    (sel : TextInfo) (s : State) :
  heap s !! self = Some me ->
  _selection me = Some sel ->
  exists s',
    script_activatePosition self s = Returns s' /\
    trace s' = trace s ++
      [if activatable sel then activate sel
       else log_debugWarning "Result TextInfo does not implement activate"] /\
    count isMessage (trace s') = count isMessage (trace s) /\
    heap s' = heap s /\
    focusObject s' = focusObject s /\
    eventQueue s' = eventQueue s /\
    timers s' = timers s /\
    _activeRecog s' = _activeRecog s.
Proof.
  intros Hme Hsel. unfold script_activatePosition. rewrite Hme, Hsel.
  destruct (activatable sel); eexists; (split; [reflexivity|]); cbn;
    (repeat split; try done); count_eval; lia.
Qed.

Lemma activation_is_logged_not_spoken_witness :
  exists s',
    script_activatePosition 0 shown = Returns s' /\
    trace s' = trace shown ++
      [log_debugWarning "Result TextInfo does not implement activate"].
Proof.
  destruct (activation_is_logged_not_spoken 0
              {| parent := HostObject Scenario.desktop;
                 result := Some Scenario.hello;
                 _selection := Some (viewAt Scenario.hello 0 0);
                 recognizer := Scenario.liveOcr;
                 imageInfo := mkRecogImageInfo 10 20 300 200 300 200;
                 obj_windowHandle := 4242; monitoring := true |}
              (viewAt Scenario.hello 0 0) shown eq_refl eq_refl)
    as (s' & H1 & H2 & _).
  exists s'. split; [exact H1|exact H2].
Defined.

(** X10. Gaining focus arms nothing: [event_gainFocus] leaves the deferred
    recognitions, the event queue, the focus pointer and [_activeRecog] as
    they are and neither captures nor recognizes; it starts monitoring
    exactly when the recognizer allows automatic refresh, and keeps the
    result and the cursor. *)
Theorem gaining_focus_arms_nothing (self : ObjId) (me : RecogResultNVDAObject)
    (s : State) :
  heap s !! self = Some me ->
  let s' := event_gainFocus self s in
  timers s' = timers s /\
  eventQueue s' = eventQueue s /\
  focusObject s' = focusObject s /\
  _activeRecog s' = _activeRecog s /\
  trace s' = trace s ++ [super_event_gainFocus self] /\
  count isRecognize (trace s') = count isRecognize (trace s) /\
  heap s' !! self
  = Some (if allowAutoRefresh (recognizer me) then set_monitoring true me else me) /\
  (forall o, o <> self -> heap s' !! o = heap s !! o).
Proof.
  intros Hme s'. subst s'. unfold event_gainFocus, startMonitoring. cbn. rewrite Hme.
  destruct (allowAutoRefresh (recognizer me)); cbn; rewrite ?Hme; cbn.
  - repeat split; try done.
    + count_eval. lia.
    + by rewrite lookup_insert_eq.
    + intros o Ho. by rewrite lookup_insert_ne.
  - repeat split; try done. count_eval. lia.
Qed.

Lemma gaining_focus_arms_nothing_witness :
  timers (event_gainFocus 0 closed) = timers closed /\
  (monitoring <$> heap (event_gainFocus 0 closed) !! 0) = Some true.
Proof.
  pose proof (gaining_focus_arms_nothing 0
                {| parent := HostObject Scenario.desktop;
                   result := Some Scenario.hello;
                   _selection := Some (viewAt Scenario.hello 0 0);
                   recognizer := Scenario.liveOcr;
                   imageInfo := mkRecogImageInfo 10 20 300 200 300 200;
                   obj_windowHandle := 4242; monitoring := false |}
                closed eq_refl) as H.
  cbv zeta in H. destruct H as (H1 & _ & _ & _ & _ & _ & H7 & _).
  split; [exact H1|]. exact (f_equal (fmap monitoring) H7).
Defined.

(** X11. One turn of the automatic refresh, for a focused object whose
    recognizer refreshes automatically: the deferred recognition that comes
    due leaves the pending list and makes one capture and one [recognize]
    call; a success of that call arms the next deferred recognition, so as
    many are pending after the turn as before; a failure arms none, so one
    fewer is pending and the refreshing ends. *)
Theorem refresh_turn_rearms_on_success_only (self : ObjId)
    (me : RecogResultNVDAObject) (sel : TextInfo) (s : State) (n : nat) (t : Timer)
    (r : RecognitionResult) (exc : string) :
  heap s !! self = Some me ->
  hasFocus self s = true ->
  _selection me = Some sel ->
  allowAutoRefresh (recognizer me) = true ->
  timers s !! n = Some t ->
  timer_self t = self ->
  let due := fire n s in
  trace due = trace s ++
    [captureImage (recogWidth (imageInfo me)) (recogHeight (imageInfo me))
       (screenLeft (imageInfo me)) (screenTop (imageInfo me))
       (screenWidth (imageInfo me)) (screenHeight (imageInfo me));
     recognizer_recognize (recognizer me) (imageInfo me) self (timer_onResult t)] /\
  timers due = delete n (timers s) /\
  (exists s2,
     _onResult self (Recognized r) due = Returns s2 /\
     timers s2 = delete n (timers s) ++
                 [{| delay := autoRefreshInterval (recognizer me);
                     timer_self := self; timer_onResult := OnResult |}] /\
     length (timers s2) = length (timers s)) /\
  (exists s3,
     _onResult self (Failed exc) due = Returns s3 /\
     timers s3 = delete n (timers s) /\
     S (length (timers s3)) = length (timers s) /\
     (monitoring <$> heap s3 !! self) = Some false).
Proof.
  intros Hme Hf Hsel Hauto Ht Hself due.
  assert (Hdue : due = emits
            [captureImage (recogWidth (imageInfo me)) (recogHeight (imageInfo me))
               (screenLeft (imageInfo me)) (screenTop (imageInfo me))
               (screenWidth (imageInfo me)) (screenHeight (imageInfo me));
             recognizer_recognize (recognizer me) (imageInfo me) self (timer_onResult t)]
            (set_timers (delete n (timers s)) s)).
  { subst due. unfold fire. rewrite Ht, Hself. unfold _recognize.
    cbn [heap set_timers]. rewrite Hme.
    change (hasFocus self (set_timers (delete n (timers s)) s)) with (hasFocus self s).
    rewrite Hf, andb_false_r. unfold emit, emits, set_trace. cbn.
    by rewrite <- app_assoc. }
  assert (Hlen : length (delete n (timers s)) = length (timers s) - 1)
    by (apply length_delete; eauto).
  assert (Hpos : 0 < length (timers s)).
  { apply lookup_lt_Some in Ht. lia. }
  rewrite Hdue. split; [done|]. split; [done|]. split.
  - destruct (onResult_success self (emits
            [captureImage (recogWidth (imageInfo me)) (recogHeight (imageInfo me))
               (screenLeft (imageInfo me)) (screenTop (imageInfo me))
               (screenWidth (imageInfo me)) (screenHeight (imageInfo me));
             recognizer_recognize (recognizer me) (imageInfo me) self (timer_onResult t)]
            (set_timers (delete n (timers s)) s)) me sel r Hf Hme Hsel)
      as (s2 & E & _ & _ & _ & _ & A5 & _).
    exists s2. split; [done|]. unfold armedIfAuto in A5. rewrite Hauto in A5.
    rewrite A5. split; [done|]. cbn. rewrite length_app, Hlen. cbn. lia.
  - destruct (onResult_failure self (emits
            [captureImage (recogWidth (imageInfo me)) (recogHeight (imageInfo me))
               (screenLeft (imageInfo me)) (screenTop (imageInfo me))
               (screenWidth (imageInfo me)) (screenHeight (imageInfo me));
             recognizer_recognize (recognizer me) (imageInfo me) self (timer_onResult t)]
            (set_timers (delete n (timers s)) s)) me exc Hf Hme)
      as (s3 & E & _ & _ & A3 & _ & A5 & _).
    exists s3. split; [done|]. rewrite A5, A3, lookup_insert_eq. cbn.
    split; [done|]. split; [lia|done].
Qed.

Lemma refresh_turn_rearms_on_success_only_witness :
  timers (fire 0 shown) = [] /\
  (exists s2,
     _onResult 0 (Recognized Scenario.helloUpper) (fire 0 shown) = Returns s2 /\
     length (timers s2) = 1) /\
  (exists s3,
     _onResult 0 (Failed "timeout") (fire 0 shown) = Returns s3 /\
     timers s3 = []).
Proof.
  pose proof (refresh_turn_rearms_on_success_only 0
                {| parent := HostObject Scenario.desktop;
                   result := Some Scenario.hello;
                   _selection := Some (viewAt Scenario.hello 0 0);
                   recognizer := Scenario.liveOcr;
                   imageInfo := mkRecogImageInfo 10 20 300 200 300 200;
                   obj_windowHandle := 4242; monitoring := true |}
                (viewAt Scenario.hello 0 0) shown 0
                {| delay := 1500; timer_self := 0; timer_onResult := OnResult |}
                Scenario.helloUpper "timeout"
                eq_refl eq_refl eq_refl eq_refl eq_refl eq_refl) as H.
  cbv zeta in H. destruct H as (_ & H2 & (s2 & E2 & _ & L2) & (s3 & E3 & T3 & _)).
  split; [exact H2|]. split.
  - exists s2. split; [exact E2|exact L2].
  - exists s3. split; [exact E3|exact T3].
Defined.

(** X12. Manual refresh requests are not coalesced: on an object whose
    recognizer does not refresh automatically, [k] requests in a row leave
    [k] zero-delay deferred recognitions pending, and change nothing else. *)
Theorem manual_requests_are_not_coalesced (self : ObjId)
    (me : RecogResultNVDAObject) (s : State) (k : nat) :
  heap s !! self = Some me ->
  allowAutoRefresh (recognizer me) = false ->
  let s' := refreshRequests k self s in
  timers s' = timers s ++
    replicate k {| delay := 0; timer_self := self; timer_onResult := OnResult |} /\
  length (timers s') = length (timers s) + k /\
  trace s' = trace s /\
  heap s' = heap s /\
  eventQueue s' = eventQueue s /\
  focusObject s' = focusObject s.
Proof.
  intros Hme Hauto s'. subst s'. unfold refreshRequests.
  induction k as [|k IH].
  - cbn. rewrite app_nil_r. repeat split; try done.
  - rewrite Nat.iter_succ. destruct IH as (I1 & I2 & I3 & I4 & I5 & I6).
    set (prev := Nat.iter k (script_refreshBuffer self) s) in *.
    assert (E : script_refreshBuffer self prev = callLater 0 self OnResult prev).
    { unfold script_refreshBuffer. by rewrite I4, Hme, Hauto. }
    rewrite E. unfold callLater. cbn [timers trace heap eventQueue focusObject set_timers].
    rewrite I1, replicate_S_end, app_assoc.
    repeat split; try done. rewrite !length_app, length_replicate. cbn. lia.
Qed.

Lemma manual_requests_are_not_coalesced_witness :
  length (timers (refreshRequests 3 0 shown_once)) = 3.
Proof.
  pose proof (manual_requests_are_not_coalesced 0
                {| parent := HostObject Scenario.desktop;
                   result := Some Scenario.hello;
                   _selection := Some (viewAt Scenario.hello 0 0);
                   recognizer := Scenario.ocr;
                   imageInfo := mkRecogImageInfo 10 20 300 200 300 200;
                   obj_windowHandle := 4242; monitoring := false |}
                shown_once 3 eq_refl eq_refl) as H.
  cbv zeta in H. exact (proj1 (proj2 H)).
Defined.

(** *** Sessions persist *)

Lemma sameSession_refl (me : RecogResultNVDAObject) : sameSession me me.
Proof. by repeat split. Qed.

Lemma sameSession_trans (a b c : RecogResultNVDAObject) :
  sameSession a b -> sameSession b c -> sameSession a c.
Proof.
  intros (A1 & A2 & A3 & A4 & A5) (B1 & B2 & B3 & B4 & B5).
  repeat split; try congruence. auto.
Qed.

Lemma persists_same (s s' : State) : heap s' = heap s -> persists s s'.
Proof. intros E o me Hme. exists me. rewrite E. split; [done|apply sameSession_refl]. Qed.

Lemma persists_trans (s1 s2 s3 : State) :
  persists s1 s2 -> persists s2 s3 -> persists s1 s3.
Proof.
  intros H12 H23 o me Hme. destruct (H12 o me Hme) as (me2 & H2 & S2).
  destruct (H23 o me2 H2) as (me3 & H3 & S3). exists me3.
  split; [done|]. by apply (sameSession_trans me me2 me3).
Qed.

(** Writing an object that is the same session, or a new object at a free
    identity. *)
Lemma persists_update (s s' : State) (k : ObjId) (v : RecogResultNVDAObject) :
  heap s' = <[k := v]> (heap s) ->
  (forall me, heap s !! k = Some me -> sameSession me v) ->
  persists s s'.
Proof.
  intros E Hk o me Hme. rewrite E. destruct (decide (k = o)) as [->|Hne].
  - exists v. rewrite lookup_insert_eq. split; [done|]. by apply Hk.
  - exists me. rewrite lookup_insert_ne by done. split; [done|apply sameSession_refl].
Qed.

Lemma persists_set_monitoring (s : State) (o : ObjId) (b : bool)
    (me : RecogResultNVDAObject) :
  heap s !! o = Some me -> persists s (store o (set_monitoring b me) s).
Proof.
  intros Hme. apply (persists_update _ _ o (set_monitoring b me)); [done|].
  intros me0 E. rewrite Hme in E. injection E as <-. by repeat split.
Qed.

Lemma persists_event_loseFocus (s : State) (o : ObjId) : persists s (event_loseFocus o s).
Proof.
  unfold event_loseFocus, stopMonitoring.
  destruct (heap s !! o) as [me|] eqn:Hme.
  - apply (persists_trans _ (store o (set_monitoring false me) s)).
    + by apply persists_set_monitoring.
    + by apply persists_same.
  - by apply persists_same.
Qed.

Lemma persists_event_gainFocus (s : State) (o : ObjId) : persists s (event_gainFocus o s).
Proof.
  unfold event_gainFocus.
  destruct (heap (emit (super_event_gainFocus o) s) !! o) as [me|] eqn:Hme;
    [|by apply persists_same].
  destruct (allowAutoRefresh (recognizer me)); [|by apply persists_same].
  unfold startMonitoring. rewrite Hme.
  apply (persists_trans _ (emit (super_event_gainFocus o) s)); [by apply persists_same|].
  by apply persists_set_monitoring.
Qed.

Lemma persists_host_gainFocus (s : State) (target : ObjRef) :
  persists s (host_gainFocus target s).
Proof.
  unfold host_gainFocus.
  set (s1 := match focusObject s with ResultObject old => _ | HostObject _ => s end).
  assert (H1 : persists s s1).
  { subst s1. destruct (focusObject s);
      [by apply persists_same|apply persists_event_loseFocus]. }
  apply (persists_trans _ s1); [done|].
  apply (persists_trans _ (set_focusObject target s1)); [by apply persists_same|].
  destruct target; [by apply persists_same|apply persists_event_gainFocus].
Qed.

Lemma persists_request (rec : ContentRecognizer) (s : State) :
  persists s (recognizeNavigatorObject rec s).
Proof.
  destruct (failingGuard rec s) as [g|] eqn:Hg.
  - rewrite (recognizeNavigatorObject_guard rec s g Hg). by apply persists_same.
  - destruct (failingGuard_None rec s Hg) as (l & t & w & h & imgInfo & H1 & H2 & H3 & H4 & H5).
    rewrite (recognizeNavigatorObject_pass rec s l t w h imgInfo H1 H2 H3 H4 H5).
    destruct (cancelActive_emits (emits (recognizerSpoke rec s) s)) as (es & ->).
    set (s4 := emit _ _).
    destruct (installAndStart_spec rec imgInfo s4) as (Hfree & _ & A2 & _).
    change (heap s4) with (heap s) in *.
    eapply persists_update; [exact A2|]. intros me Hme. congruence.
Qed.

Lemma persists_firstResult (self : ObjId) (res : RecognizeOutcome) (s : State) :
  persists s (stateOf (_onFirstResult self res s)).
Proof.
  destruct res as [r|exc]; [|by apply persists_same].
  destruct (heap s !! self) as [me|] eqn:Hme.
  - destruct (onFirstResult_success self me s Hme r) as (s' & -> & _ & _ & A3 & _).
    eapply persists_update; [exact A3|].
    intros me0 E. rewrite Hme in E. injection E as <-. by repeat split.
  - unfold _onFirstResult. cbn. rewrite Hme. by apply persists_same.
Qed.

Lemma persists_result (self : ObjId) (res : RecognizeOutcome) (s : State) :
  persists s (stateOf (_onResult self res s)).
Proof.
  unfold _onResult. destruct (hasFocus self s); [|by apply persists_same]. cbn [negb].
  destruct res as [r|exc].
  - destruct (heap s !! self) as [me|] eqn:Hme; [|by apply persists_same].
    assert (H1 : persists s (store self (set_result (Some r) me) s)).
    { eapply persists_update; [reflexivity|].
      intros me0 E. rewrite Hme in E. injection E as <-. by repeat split. }
    cbn [_selection set_result].
    destruct (_selection me) as [sel|] eqn:Hsel; [|done].
    rewrite bookmark_view.
    set (ti := if resolves (bookmark sel) r then _ else _).
    assert (H2 : persists s
              (selection_setter self ti (store self (set_result (Some r) me) s))).
    { unfold selection_setter. cbn [heap store set_heap]. rewrite lookup_insert_eq.
      eapply persists_update.
      - cbn. by rewrite insert_insert_eq.
      - intros me0 E. rewrite Hme in E. injection E as <-. by repeat split. }
    cbn [recognizer set_result].
    destruct (allowAutoRefresh (recognizer me)); cbn [stateOf];
      (eapply persists_trans; [exact H2|by apply persists_same]).
  - cbn [stateOf]. unfold stopMonitoring. cbn [heap enqueue emit set_eventQueue set_trace].
    destruct (heap s !! self) as [me|] eqn:Hme; [|by apply persists_same].
    eapply persists_update; [reflexivity|].
    intros me0 E. rewrite Hme in E. injection E as <-. by repeat split.
Qed.

Lemma persists_Step (s s' : State) : Step s s' -> persists s s'.
Proof.
  intros Hstep. destruct Hstep.
  - apply persists_request.
  - apply persists_firstResult.
  - apply persists_result.
  - unfold fire. destruct (timers s !! n) as [t|]; [|by apply persists_same].
    destruct (recognize_emits (timer_self t) (timer_onResult t)
                (set_timers (delete n (timers s)) s)) as (es & ->).
    by apply persists_same.
  - destruct q as [o|text]; cbn [dispatch]; [|by apply persists_same].
    apply (persists_trans _ (set_eventQueue rest s)); [by apply persists_same|].
    apply persists_host_gainFocus.
  - apply persists_host_gainFocus.
  - by apply persists_same.
  - unfold script_refreshBuffer. destruct (heap s !! self) as [me|]; [|by apply persists_same].
    destruct (allowAutoRefresh (recognizer me)); by apply persists_same.
  - unfold script_activatePosition.
    destruct (heap s !! self) as [me|]; [|by apply persists_same].
    destruct (_selection me) as [ti|]; [|by apply persists_same].
    destruct (activatable ti); by apply persists_same.
  - by apply persists_same.
  - unfold selection_setter. destruct (heap s !! self) as [me|] eqn:Hme;
      [|by apply persists_same].
    eapply persists_update; [reflexivity|].
    intros me0 E. rewrite Hme in E. injection E as <-. by repeat split.
  - unfold dismiss. destruct (heap s !! self) as [me|] eqn:Hme; [|by apply persists_same].
    apply (persists_trans _ (script_exit self s)).
    + unfold script_exit. rewrite Hme. by apply persists_same.
    + apply persists_host_gainFocus.
Qed.

(** X13. No event deallocates or rebinds a session: after any step every
    result object is still allocated under the same identity, with the
    recognizer, the image region, the parent and the window handle it was
    created with, and a result once set is never unset. *)
Theorem sessions_keep_region_and_recognizer (s s' : State) (o : ObjId)
    (me : RecogResultNVDAObject) :
  Step s s' ->
  heap s !! o = Some me ->
  exists me',
    heap s' !! o = Some me' /\
    recognizer me' = recognizer me /\
    imageInfo me' = imageInfo me /\
    parent me' = parent me /\
    obj_windowHandle me' = obj_windowHandle me /\
    (truthy (result me) = true -> truthy (result me') = true).
Proof.
  intros Hstep Hme. destruct (persists_Step s s' Hstep o me Hme) as (me' & H1 & H2).
  exists me'. split; [done|exact H2].
Qed.

Lemma sessions_keep_region_and_recognizer_witness :
  exists me',
    heap answered !! 0 = Some me' /\
    recognizer me' = Scenario.liveOcr /\
    imageInfo me' = mkRecogImageInfo 10 20 300 200 300 200.
Proof.
  destruct (sessions_keep_region_and_recognizer requested answered 0
              {| parent := HostObject Scenario.desktop; result := None;
                 _selection := None; recognizer := Scenario.liveOcr;
                 imageInfo := mkRecogImageInfo 10 20 300 200 300 200;
                 obj_windowHandle := 4242; monitoring := false |}
              (step_firstResult 0 (Recognized Scenario.hello) requested) eq_refl)
    as (me' & H1 & H2 & H3 & _).
  exists me'. split; [exact H1|]. split; [exact H2|exact H3].
Defined.
